(** * version_checker.py: table parsing, version comparison, issue filing

    A shallow embedding of [src/version_checker.py].  Python [str] values are
    modelled as [string]; a character stands for the code point of the same
    number (0..255).  The hosting service (PyGithub) and [packaging.version]
    are collaborators from outside the repository: they enter as an interface
    whose operations answer with a value or raise [GithubException], and as a
    parser with an ordering. *)

From Stdlib Require Import String Ascii List ZArith NArith Bool Lia DecimalString.
Import ListNotations.
Open Scope string_scope.
Open Scope bool_scope.

(** ** Python string primitives *)

Module PyStr.

(** [str.isspace] on the code points below 256: TAB..CR, FS..US and space,
    NEL (0x85) and NBSP (0xA0). *)
Definition isspace (c : ascii) : bool :=
  let n := N_of_ascii c in
  (((9 <=? n) && (n <=? 13)) || ((28 <=? n) && (n <=? 32))
   || (n =? 133) || (n =? 160))%N.

(** [str.lower] on one character: A..Z, and the upper-case letters of
    0xC0..0xDE (0xD7, the multiplication sign, is not a letter). *)
Definition lower_char (c : ascii) : ascii :=
  let n := N_of_ascii c in
  if (((65 <=? n) && (n <=? 90))
      || ((192 <=? n) && (n <=? 222) && negb (n =? 215)))%N
  then ascii_of_N (n + 32) else c.

(** [s.lower()] *)
Fixpoint lower (s : string) : string :=
  match s with
  | EmptyString => EmptyString
  | String c s' => String (lower_char c) (lower s')
  end.

(** Drop the longest prefix of characters satisfying [p]: [s.lstrip(chars)]. *)
Fixpoint lstrip_by (p : ascii -> bool) (s : string) : string :=
  match s with
  | EmptyString => EmptyString
  | String c s' => if p c then lstrip_by p s' else s
  end.

(** Drop the longest suffix of characters satisfying [p]: [s.rstrip(chars)]. *)
Fixpoint rstrip_by (p : ascii -> bool) (s : string) : string :=
  match s with
  | EmptyString => EmptyString
  | String c s' =>
      match rstrip_by p s' with
      | EmptyString => if p c then EmptyString else String c EmptyString
      | r => String c r
      end
  end.

(** [s.strip()] *)
Definition strip (s : string) : string :=
  rstrip_by isspace (lstrip_by isspace s).

(** [s.lstrip(c)] and [s.rstrip(c)] for a one-character argument: every
    leading (trailing) occurrence goes, not only the first. *)
Definition lstrip_char (c : ascii) (s : string) : string :=
  lstrip_by (Ascii.eqb c) s.

Definition rstrip_char (c : ascii) (s : string) : string :=
  rstrip_by (Ascii.eqb c) s.

(** [s.split(sep)] for a one-character separator: one more piece than there
    are separators, never the empty list. *)
Fixpoint split (sep : ascii) (s : string) : list string :=
  match s with
  | EmptyString => [EmptyString]
  | String c s' =>
      if Ascii.eqb c sep then EmptyString :: split sep s'
      else match split sep s' with
           | piece :: pieces => String c piece :: pieces
           | [] => [String c EmptyString]
           end
  end.

(** [l[1:-1]] *)
Definition slice_1_m1 {A : Type} (l : list A) : list A :=
  removelast (tl l).

(** [s.startswith(p)] *)
Definition startswith (s p : string) : bool := String.prefix p s.

(** [needle in hay] *)
Fixpoint contains (needle hay : string) : bool :=
  String.prefix needle hay
  || match hay with
     | EmptyString => false
     | String _ hay' => contains needle hay'
     end.

(** [s[:n]] *)
Fixpoint take (n : nat) (s : string) : string :=
  match n, s with
  | S n', String c s' => String c (take n' s')
  | _, _ => EmptyString
  end.

(** [sep.join(l)] *)
Fixpoint join (sep : string) (l : list string) : string :=
  match l with
  | [] => EmptyString
  | [x] => x
  | x :: rest => x ++ sep ++ join sep rest
  end.

(** [c * n] for a one-character string *)
Fixpoint repeat_char (c : ascii) (n : nat) : string :=
  match n with
  | O => EmptyString
  | S n' => String c (repeat_char c n')
  end.

(** [str(n)] for an [int] *)
Definition str_of_Z (z : Z) : string := NilZero.string_of_int (Z.to_int z).

Definition str_of_nat (n : nat) : string := str_of_Z (Z.of_nat n).

(** Every character of [s] satisfies [p]. *)
Fixpoint all_chars (p : ascii -> bool) (s : string) : bool :=
  match s with
  | EmptyString => true
  | String c s' => p c && all_chars p s'
  end.

(** Truthiness of a [str]: the empty string is falsy. *)
Definition truthy (s : string) : bool :=
  match s with EmptyString => false | _ => true end.

End PyStr.

(** ** The regular expressions of the parser

    Each pattern is a sequence of literals and of one-or-more repetitions of a
    negated character class, every repetition being followed by a character
    outside its class (or by the end of the pattern).  A greedy repetition
    therefore stops exactly where the class stops, and backtracking to a
    shorter repetition cannot succeed; [span] takes that longest run. *)

Module Re.

(** The longest prefix of characters satisfying [p], and what follows it. *)
Fixpoint span (p : ascii -> bool) (s : string) : string * string :=
  match s with
  | EmptyString => (EmptyString, EmptyString)
  | String c s' =>
      if p c then let (run, rest) := span p s' in (String c run, rest)
      else (EmptyString, s)
  end.

(** What ends a longest run: nothing, or a character outside the class. *)
Definition stops (p : ascii -> bool) (rest : string) : Prop :=
  match rest with
  | EmptyString => True
  | String c _ => p c = false
  end.

(** [re.search]: the match at the leftmost position that has one. *)
Fixpoint search {A : Type} (match_at : string -> option A) (s : string)
  : option A :=
  match match_at s with
  | Some m => Some m
  | None =>
      match s with
      | EmptyString => None
      | String _ s' => search match_at s'
      end
  end.

(** Strip the literal [lit] from the front of [s]. *)
Fixpoint literal (lit s : string) : option string :=
  match lit, s with
  | EmptyString, _ => Some s
  | String a lit', String b s' =>
      if Ascii.eqb a b then literal lit' s' else None
  | String _ _, EmptyString => None
  end.

Definition not_char (x : ascii) (c : ascii) : bool := negb (Ascii.eqb c x).

(** Match of [\[([^\]]+)\]\(([^\)]+)\)] at the start of [s]:
    groups 1 and 2. *)
Definition link_at (s : string) : option (string * string) :=
  match literal "[" s with
  | None => None
  | Some s1 =>
      let (name, r1) := span (not_char "]") s1 in
      match name, literal "](" r1 with
      | String _ _, Some s2 =>
          let (url, r2) := span (not_char ")") s2 in
          match url, literal ")" r2 with
          | String _ _, Some _ => Some (name, url)
          | _, _ => None
          end
      | _, _ => None
      end
  end.

Definition not_slash : ascii -> bool := not_char "/".

(** Match of [github\.com/([^/]+)/([^/]+)] at the start of [s]:
    groups 1 and 2. *)
Definition github_at (s : string) : option (string * string) :=
  match literal "github.com/" s with
  | None => None
  | Some s1 =>
      let (owner, r1) := span not_slash s1 in
      match owner, literal "/" r1 with
      | String _ _, Some s2 =>
          let (repo, _) := span not_slash s2 in
          match repo with
          | String _ _ => Some (owner, repo)
          | EmptyString => None
          end
      | _, _ => None
      end
  end.

Definition is_hex_lower (c : ascii) : bool :=
  let n := N_of_ascii c in
  (((48 <=? n) && (n <=? 57)) || ((97 <=? n) && (n <=? 102)))%N.

(** [re.match(r'^[0-9a-f]{7,}$', s)] as a truth value.  Without
    [re.MULTILINE], [$] matches at the end of the string and also just before
    a newline that ends it. *)
Definition match_commit_hash (s : string) : bool :=
  let (digits, rest) := span is_hex_lower s in
  (7 <=? String.length digits)%nat
  && (String.eqb rest "" || String.eqb rest (String "010" "")).

End Re.

(** ** The plugin record and the table parser *)

(** [class Plugin] *)
Record Plugin : Type := mkPlugin {
  name : string;
  github_url : string;
  owner : string;
  repo : string;
  versions : list string;
  is_commit_hash : bool
}.

(** The cells of a row line: [[cell.strip() for cell in line.split('|')[1:-1]]]. *)
Definition row_cells (line : string) : list string :=
  map PyStr.strip (PyStr.slice_1_m1 (PyStr.split "|" line)).

(** The literal that marks a row without source. *)
Definition NO_SRC : string := "**NO SRC**".

(** [bool(versions[0] and re.match(r'^[0-9a-f]{7,}$', versions[0]))];
    [versions] is never empty where the source evaluates this. *)
Definition commit_hash_flag (versions : list string) : bool :=
  match versions with
  | v0 :: _ => PyStr.truthy v0 && Re.match_commit_hash v0
  | [] => false
  end.

(** Lines 59-99 of [parse_readme]: what one row line contributes.  [None] is
    one of the four [continue] statements, [Some p] the [plugins.append]. *)
Definition parse_row (line : string) : option Plugin :=
  let cells := row_cells line in
  match cells with
  | plugin_cell :: ((_ :: _) as version_cells) =>
      if PyStr.contains NO_SRC plugin_cell then None
      else
        match Re.search Re.link_at plugin_cell with
        | None => None
        | Some (plugin_name, url) =>
            let github_url := PyStr.rstrip_char "/" url in
            match Re.search Re.github_at github_url with
            | None => None
            | Some (owner, repo) =>
                let versions := map PyStr.strip version_cells in
                Some (mkPlugin plugin_name github_url owner repo versions
                        (commit_hash_flag versions))
            end
        end
  | _ => None
  end.

(** What the body of the [for line in ...] loop does with one line. *)
Inductive line_action : Type :=
| Continue (in_table : bool) (appended : option Plugin)
| Break.

Definition parse_line (in_table : bool) (raw : string) : line_action :=
  let line := PyStr.strip raw in
  if PyStr.startswith line "| Plugin" || PyStr.startswith line "| ---"
  then Continue true None
  else if in_table && negb (PyStr.startswith line "|") then Break
  else if in_table && PyStr.startswith line "|"
       then Continue in_table (parse_row line)
       else Continue in_table None.

Definition append_opt {A : Type} (l : list A) (o : option A) : list A :=
  match o with
  | Some a => l ++ [a]
  | None => l
  end.

(** The [for] loop of [parse_readme] over the remaining lines. *)
Fixpoint parse_lines (lines : list string) (in_table : bool)
         (plugins : list Plugin) : list Plugin :=
  match lines with
  | [] => plugins
  | raw :: rest =>
      match parse_line in_table raw with
      | Break => plugins
      | Continue in_table' appended =>
          parse_lines rest in_table' (append_opt plugins appended)
      end
  end.

(** [parse_readme], from the text that [f.read()] returned. *)
Definition parse_readme (content : string) : list Plugin :=
  parse_lines (PyStr.split "010" content) false [].

(** ** The outdated comparator *)

(** [packaging.version]: [version_parse s = None] stands for
    [version.parse(s)] raising [InvalidVersion], [version_lt] for [<] on
    parsed versions. *)
Class Packaging : Type := {
  Version : Type;
  version_parse : string -> option Version;
  version_lt : Version -> Version -> bool
}.

Section Comparator.
Context {pk : Packaging}.

(** [is_version_outdated]: the [try] evaluates [version.parse(current)]
    first, then [version.parse(latest)]; either may raise, and the
    [except version.InvalidVersion] branch answers [current != latest]. *)
Definition is_version_outdated (current latest : string)
           (is_commit_hash : bool) : bool :=
  if is_commit_hash
  then negb (String.eqb (PyStr.lower current) (PyStr.lower latest))
  else
    match version_parse current with
    | None => negb (String.eqb current latest)
    | Some vc =>
        match version_parse latest with
        | None => negb (String.eqb current latest)
        | Some vl => version_lt vc vl
        end
    end.

(** Lines 304-308 of [main]: the scan of [plugin.versions] that sets
    [any_outdated].  The second component lists the entries the loop body
    ran on before the loop ended (by exhaustion or by [break]). *)
Fixpoint scan_versions (versions : list string) (latest : string)
         (is_commit_hash : bool) : bool * list string :=
  match versions with
  | [] => (false, [])
  | current :: rest =>
      if PyStr.truthy current
         && is_version_outdated current latest is_commit_hash
      then (true, [current])
      else
        let (any_outdated, visited) :=
          scan_versions rest latest is_commit_hash in
        (any_outdated, current :: visited)
  end.

Definition any_outdated (plugin : Plugin) (latest : string) : bool :=
  fst (scan_versions (versions plugin) latest (is_commit_hash plugin)).

End Comparator.

(** ** Exceptions, the hosting service and the effects of the program *)

(** [github.GithubException]: its [status] and its rendering by [str]. *)
Record GithubException : Type := mkGithubException {
  status : Z;
  message : string
}.

Inductive exn : Type :=
| EGithub (e : GithubException)
| EIndexError
(* [OSError] raised by [open], or [UnicodeDecodeError] raised by [read] *)
| EReadError
| ESystemExit (code : Z).

(** What the file system holds at a path: nothing, something that exists
    and that [open] or the UTF-8 decoding of [read] rejects (a directory, a
    file without read permission, bytes that are not UTF-8), or a text. *)
Inductive file : Type :=
| Missing
| Unreadable
| Text (content : string).

Inductive reply (A : Type) : Type :=
| Ok (a : A)
| Fails (e : GithubException).
Arguments Ok {A} a.
Arguments Fails {A} e.

(** The operations of PyGithub that the program consumes, over a state [W]
    of the remote service and repository handles [Repo].  A lazily fetched
    listing is modelled by the list it yields. *)
Class Github (W Repo : Type) : Type := {
  get_repo : string -> W -> reply Repo * W;
  default_branch : Repo -> string;
  (* commit identifiers on the branch, newest first *)
  get_commits : Repo -> string -> W -> reply (list string) * W;
  (* tag_name of the latest release *)
  get_latest_release : Repo -> W -> reply string * W;
  (* tag names, as ordered by the service *)
  get_tags : Repo -> W -> reply (list string) * W;
  (* titles of the issues with the given state and labels *)
  get_issues : Repo -> string -> list string -> W -> reply (list string) * W;
  (* number of the created issue *)
  repo_create_issue :
    Repo -> string -> string -> list string -> W -> reply Z * W
}.

Inductive request : Type :=
| GetRepo (full_name : string)
| GetCommits (sha : string)
| GetLatestRelease
| GetTags
| GetIssues (state : string) (labels : list string)
| CreateIssue (title body : string) (labels : list string).

(** What a run leaves behind: text written to the two streams and the
    requests made of the service, in order. *)
Inductive event : Type :=
| Stdout (text : string)
| Stderr (text : string)
| Request (r : request).

Record state (W : Type) : Type := mkState {
  world : W;
  log : list event
}.
Arguments mkState {W} world log.
Arguments world {W} s.
Arguments log {W} s.

Inductive outcome (A : Type) : Type :=
| Return (a : A)
| Raise (e : exn).
Arguments Return {A} a.
Arguments Raise {A} e.

Definition M (W A : Type) : Type := state W -> outcome A * state W.

Definition ret {W A : Type} (a : A) : M W A := fun s => (Return a, s).

Definition bind {W A B : Type} (m : M W A) (k : A -> M W B) : M W B :=
  fun s =>
    match m s with
    | (Return a, s') => k a s'
    | (Raise e, s') => (Raise e, s')
    end.

Definition raise {W A : Type} (e : exn) : M W A := fun s => (Raise e, s).

(** [try: m  except GithubException as e: handler e] *)
Definition try_except {W A : Type} (m : M W A)
           (handler : GithubException -> M W A) : M W A :=
  fun s =>
    match m s with
    | (Raise (EGithub e), s') => handler e s'
    | r => r
    end.

Definition emit {W : Type} (e : event) : M W unit :=
  fun s => (Return tt, mkState (world s) (log s ++ [e])).

Notation "x <- m ;; k" := (bind m (fun x => k))
  (at level 61, m at next level, right associativity).
Notation "m ;;; k" := (bind m (fun _ => k))
  (at level 61, right associativity).

Definition nl : string := String "010" "".

(** [print(text)], [print(text, end=' ')] and [print(text, file=sys.stderr)] *)
Definition print {W : Type} (text : string) : M W unit :=
  emit (Stdout (text ++ nl)).

Definition print_end_space {W : Type} (text : string) : M W unit :=
  emit (Stdout (text ++ " ")).

Definition print_err {W : Type} (text : string) : M W unit :=
  emit (Stderr (text ++ nl)).

(** [sys.exit(code)] *)
Definition sys_exit {W A : Type} (code : Z) : M W A :=
  raise (ESystemExit code).

(** [l[0]] *)
Definition index0 {W A : Type} (l : list A) : M W A :=
  match l with
  | a :: _ => ret a
  | [] => raise EIndexError
  end.

(** A request to the service: logged, answered from the service state. *)
Definition call {W A : Type} (r : request) (op : W -> reply A * W) : M W A :=
  fun s =>
    let (answer, w') := op (world s) in
    let s' := mkState w' (log s ++ [Request r]) in
    match answer with
    | Ok a => (Return a, s')
    | Fails e => (Raise (EGithub e), s')
    end.

(** The exit status the operating system sees. *)
Definition exit_status {A : Type} (o : outcome A) : Z :=
  match o with
  | Return _ => 0
  | Raise (ESystemExit code) => code
  | Raise _ => 1
  end.

(** ** The resolver, the reconciler and the orchestrator *)

(** The parsed command line ([argparse] is outside the model). *)
Record Args : Type := mkArgs {
  versions_file : string;
  github_token : option string;
  target_repo : string;   (* --repo *)
  dry_run : bool
}.

Section Program.
Context {pk : Packaging} {W Repo : Type} {gh : Github W Repo}.

(** The file system, which does not change during the run. *)
Variable file_system : string -> file.

(** The order in which Python iterates [set(l)]: it depends on the hashes
    of the strings and is not fixed by the program. *)
Variable set_iter : list string -> list string.

(** [get_latest_version] *)
Definition get_latest_version (plugin : Plugin) : M W (option string) :=
  try_except
    (repo <- call (GetRepo (owner plugin ++ "/" ++ repo plugin))
                  (get_repo (owner plugin ++ "/" ++ repo plugin)) ;;
     if is_commit_hash plugin
     then
       let default_branch := default_branch repo in
       commits <- call (GetCommits default_branch)
                       (get_commits repo default_branch) ;;
       sha <- index0 commits ;;
       ret (Some (PyStr.take 7 sha))
     else
       try_except
         (tag <- call GetLatestRelease (get_latest_release repo) ;;
          ret (Some (PyStr.lstrip_char "v" tag)))
         (fun e =>
            if (status e =? 404)%Z
            then
              tags <- call GetTags (get_tags repo) ;;
              match tags with
              | latest_tag :: _ =>
                  ret (Some (PyStr.lstrip_char "v" latest_tag))
              | [] => raise (EGithub e)
              end
            else raise (EGithub e)))
    (fun e =>
       print_err ("Error fetching version for " ++ name plugin ++ ": "
                  ++ message e) ;;;
       ret None).

Definition issue_title (plugin_name new_version : string) : string :=
  "Update " ++ plugin_name ++ " to " ++ new_version.

(** [check_for_existing_issue] *)
Definition check_for_existing_issue (repo_name plugin_name new_version
                                     : string) : M W bool :=
  try_except
    (repo <- call (GetRepo repo_name) (get_repo repo_name) ;;
     let title := issue_title plugin_name new_version in
     issues <- call (GetIssues "open" ["version-update"])
                    (get_issues repo "open" ["version-update"]) ;;
     ret (existsb (String.eqb title) issues))
    (fun e =>
       print_err ("Error checking for existing issues: " ++ message e) ;;;
       ret false).

(** The body text built by [create_issue]. *)
Definition issue_body (plugin : Plugin) (new_version : string) : string :=
  let version_type :=
    if is_commit_hash plugin then "commit" else "version" in
  let current_versions := PyStr.join ", " (set_iter (versions plugin)) in
  "A new " ++ version_type ++ " of **" ++ name plugin
  ++ "** is available." ++ nl ++ nl
  ++ "**Current " ++ version_type ++ "(s)**: " ++ current_versions ++ nl
  ++ "**Latest " ++ version_type ++ "**: " ++ new_version ++ nl ++ nl
  ++ "**Repository**: " ++ github_url plugin ++ nl
  ++ "**Release link**: " ++ github_url plugin ++ "/"
  ++ (if is_commit_hash plugin then "commit" else "releases/tag/v")
  ++ new_version ++ nl ++ nl
  ++ "This issue was automatically created by the version checker." ++ nl.

Definition issue_labels : list string := ["version-update"; "automated"].

(** [create_issue] *)
Definition create_issue (repo_name : string) (plugin : Plugin)
           (new_version : string) (dry_run : bool) : M W unit :=
  let title := issue_title (name plugin) new_version in
  let body := issue_body plugin new_version in
  if dry_run
  then
    print (nl ++ "[DRY RUN] Would create issue:") ;;;
    print ("  Title: " ++ title) ;;;
    print "  Labels: version-update, automated" ;;;
    print ("  Body:" ++ nl ++ body)
  else
    try_except
      (repo <- call (GetRepo repo_name) (get_repo repo_name) ;;
       number <- call (CreateIssue title body issue_labels)
                      (repo_create_issue repo title body issue_labels) ;;
       print ("Created issue #" ++ PyStr.str_of_Z number ++ ": " ++ title))
      (fun e =>
         print_err ("Error creating issue for " ++ name plugin ++ ": "
                    ++ message e)).

(** Lines 310-320 of [main]: what follows the scan of the versions.  The
    result is the new value of [updates_found]. *)
Definition reconcile (args : Args) (plugin : Plugin) (latest : string)
           (updates_found : Z) : M W Z :=
  if any_outdated plugin latest
  then
    print ("UPDATE AVAILABLE: " ++ latest) ;;;
    exists_already <-
      check_for_existing_issue (target_repo args) (name plugin) latest ;;
    if (exists_already : bool)
    then print "  Issue already exists, skipping" ;;; ret updates_found
    else
      create_issue (target_repo args) plugin latest (dry_run args) ;;;
      ret (updates_found + 1)%Z
  else print "OK" ;;; ret updates_found.

(** Lines 295-320 of [main]: the body of [for plugin in plugins], on the
    counters [(updates_found, errors)]. *)
Definition check_plugin (args : Args) (plugin : Plugin)
           (counters : Z * Z) : M W (Z * Z) :=
  let (updates_found, errors) := counters in
  print_end_space ("Checking " ++ name plugin ++ "...") ;;;
  latest <- get_latest_version plugin ;;
  match latest with
  | None => print "ERROR" ;;; ret (updates_found, (errors + 1)%Z)
  | Some latest =>
      updates_found' <- reconcile args plugin latest updates_found ;;
      ret (updates_found', errors)
  end.

(** [for plugin in plugins: ...] *)
Fixpoint check_plugins (args : Args) (plugins : list Plugin)
         (counters : Z * Z) : M W (Z * Z) :=
  match plugins with
  | [] => ret counters
  | plugin :: rest =>
      counters' <- check_plugin args plugin counters ;;
      check_plugins args rest counters'
  end.

(** [os.path.exists(path)] *)
Definition path_exists (path : string) : bool :=
  match file_system path with
  | Missing => false
  | _ => true
  end.

(** Lines 39-40 of [parse_readme]: [open] the file and [read] its text. *)
Definition read_text (path : string) : M W string :=
  match file_system path with
  | Text content => ret content
  | _ => raise EReadError
  end.

(** [parse_readme(readme_path)], as [main] calls it. *)
Definition parse_readme_at (readme_path : string) : M W (list Plugin) :=
  content <- read_text readme_path ;;
  ret (parse_readme content).

(** Lines 288-330 of [main]: the loop over the parsed plugins and the
    summary. *)
Definition check_and_summarise (args : Args) (plugins : list Plugin)
  : M W unit :=
  print ("Found " ++ PyStr.str_of_nat (List.length plugins)
         ++ " plugins to check" ++ nl) ;;;
  counters <- check_plugins args plugins (0, 0)%Z ;;
  let (updates_found, errors) := (counters : Z * Z) in
  print (nl ++ PyStr.repeat_char "=" 50) ;;;
  print "Summary:" ;;;
  print ("  Plugins checked: " ++ PyStr.str_of_nat (List.length plugins)) ;;;
  print ("  Updates found: " ++ PyStr.str_of_Z updates_found) ;;;
  print ("  Errors: " ++ PyStr.str_of_Z errors) ;;;
  if (errors >? 0)%Z then sys_exit 1 else ret tt.

(** Lines 285-330 of [main]: the run once the inputs are validated. *)
Definition run_checks (args : Args) : M W unit :=
  print ("Parsing " ++ versions_file args ++ "...") ;;;
  plugins <- parse_readme_at (versions_file args) ;;
  check_and_summarise args plugins.

(** [not args.github_token] *)
Definition token_missing (args : Args) : bool :=
  match github_token args with
  | Some (String _ _) => false
  | _ => true
  end.

(** [main], from the parsed arguments. *)
Definition main (args : Args) : M W unit :=
  if token_missing args
  then
    print_err ("Error: GitHub token is required. Set GITHUB_TOKEN env var "
               ++ "or use --github-token") ;;;
    sys_exit 1
  else
    if negb (path_exists (versions_file args))
    then
      print_err ("Error: Versions file not found: "
                 ++ versions_file args) ;;;
      sys_exit 1
    else run_checks args.

(** [m] ends from every state; [Q] holds of how it ends and of what it
    appended to the log. *)
Definition runs {A : Type} (m : M W A)
           (Q : outcome A -> list event -> Prop) : Prop :=
  forall s, exists o tail w',
      m s = (o, mkState w' (log s ++ tail)%list) /\ Q o tail.

End Program.

(** ** Test doubles: a scripted hosting service and a dotted-number parser *)

Module Mock.

(** What the scripted service answers for one repository. *)
Record repo_data : Type := mkRepo {
  full_name : string;
  branch : string;
  commits : reply (list string);
  release : reply string;
  tags : reply (list string)
}.

Record service : Type := mkService {
  repos : list repo_data;
  search_error : option GithubException;
  create_error : option GithubException
}.

(** The state of the service: the titles of the open issues that carry the
    version-update label, oldest first. *)
Definition world : Type := list string.

Definition not_found : GithubException := mkGithubException 404 "404 Not Found".

Definition lookup (sv : service) (full : string) : reply repo_data :=
  match find (fun r => String.eqb (full_name r) full) (repos sv) with
  | Some r => Ok r
  | None => Fails not_found
  end.

Definition github (sv : service) : Github world repo_data := {|
  get_repo := fun full w => (lookup sv full, w);
  default_branch := branch;
  get_commits := fun r _ w => (commits r, w);
  get_latest_release := fun r w => (release r, w);
  get_tags := fun r w => (tags r, w);
  get_issues := fun _ _ _ w =>
    (match search_error sv with Some e => Fails e | None => Ok w end, w);
  repo_create_issue := fun _ title _ _ w =>
    match create_error sv with
    | Some e => (Fails e, w)
    | None => (Ok (Z.of_nat (List.length w) + 1)%Z, (w ++ [title])%list)
    end
|}.

(** A stand-in for [packaging.version] that knows only dotted decimal
    numbers, compared component by component with missing components read
    as zero. *)
Definition digit (c : ascii) : option N :=
  let n := N_of_ascii c in
  if ((48 <=? n) && (n <=? 57))%N then Some (n - 48)%N else None.

Fixpoint number (acc : N) (s : string) : option N :=
  match s with
  | EmptyString => Some acc
  | String c s' =>
      match digit c with
      | Some d => number (10 * acc + d)%N s'
      | None => None
      end
  end.

Fixpoint components (pieces : list string) : option (list N) :=
  match pieces with
  | [] => Some []
  | EmptyString :: _ => None
  | piece :: rest =>
      match number 0 piece, components rest with
      | Some n, Some ns => Some (n :: ns)
      | _, _ => None
      end
  end.

Fixpoint dotted_lt (a b : list N) : bool :=
  match a, b with
  | _, [] => false
  | [], y :: b' => (0 <? y)%N || dotted_lt [] b'
  | x :: a', y :: b' => (x <? y)%N || ((x =? y)%N && dotted_lt a' b')
  end.

Definition dotted : Packaging := {|
  Version := list N;
  version_parse := fun s => components (PyStr.split "." s);
  version_lt := dotted_lt
|}.

Definition no_file : string -> file := fun _ => Missing.

Definition start (w : world) : state world := mkState w [].

End Mock.

(** ** Notions of the specification *)

Module Spec.

(** [s] as a whole is of the form [^[0-9a-f]{7,}$]: seven or more characters,
    each a digit or one of a..f. *)
Definition commit_pattern (s : string) : bool :=
  (7 <=? String.length s)%nat && PyStr.all_chars Re.is_hex_lower s.

(** The first non-empty entry of a list of recorded versions. *)
Definition first_non_empty (versions : list string) : option string :=
  find PyStr.truthy versions.

(** The flag as the specification words it: decided by the first non-empty
    recorded version. *)
Definition uses_commit_identifiers (versions : list string) : bool :=
  match first_non_empty versions with
  | Some v => commit_pattern v
  | None => false
  end.

(** What follows the first [://] of a URL (the whole text if there is none). *)
Definition after_scheme (url : string) : string :=
  match Re.search (Re.literal "://") url with
  | Some rest => rest
  | None => url
  end.

(** The path segments of [scheme://host/seg1/seg2/...]: the pieces between
    slashes that come after the host. *)
Definition path_segments (url : string) : list string :=
  tl (PyStr.split "/" (after_scheme url)).

(** The capital letters of the alphabet: A..Z, and the accented capitals
    0xC0..0xDE without the multiplication sign 0xD7.  The small form of each
    stands 32 places after it. *)
Definition is_capital (c : ascii) : bool :=
  let n := nat_of_ascii c in
  (((65 <=? n) && (n <=? 90)) || ((192 <=? n) && (n <=? 214))
   || ((216 <=? n) && (n <=? 222)))%nat.

(** Two characters are the same letter: they are equal, or one is the
    capital of the other. *)
Definition same_letter (a b : ascii) : bool :=
  Ascii.eqb a b
  || (is_capital a && (nat_of_ascii b =? nat_of_ascii a + 32)%nat)
  || (is_capital b && (nat_of_ascii a =? nat_of_ascii b + 32)%nat).

(** Two strings are equal when the case of letters is ignored: they have
    the same length and, place by place, the same letter. *)
Fixpoint equal_ignoring_case (s t : string) : bool :=
  match s, t with
  | EmptyString, EmptyString => true
  | String a s', String b t' => same_letter a b && equal_ignoring_case s' t'
  | _, _ => false
  end.

(** Every character of the alphabet. *)
Definition alphabet : list ascii := map ascii_of_nat (seq 0 256).

(** [tag.removeprefix('v')]: one leading [v] goes, if there is one. *)
Definition strip_one_v (tag : string) : string :=
  match Re.literal "v" tag with
  | Some rest => rest
  | None => tag
  end.

End Spec.

(** ** Reading the log of a run *)

(** The line that [get_latest_version] writes when a resolution fails. *)
Definition is_fetch_error (e : event) : bool :=
  match e with
  | Stderr text => PyStr.startswith text "Error fetching version for "
  | _ => false
  end.

(** The write operation of the issue tracker. *)
Definition is_create (e : event) : bool :=
  match e with
  | Request (CreateIssue _ _ _) => true
  | _ => false
  end.

Definition count (f : event -> bool) (events : list event) : nat :=
  List.length (filter f events).


(** The service [gh] with another write operation in the place of its
    own. *)
Definition replace_create {W Repo : Type} (gh : Github W Repo)
           (create : Repo -> string -> string -> list string -> W
                     -> reply Z * W) : Github W Repo := {|
  get_repo := @get_repo W Repo gh;
  default_branch := @default_branch W Repo gh;
  get_commits := @get_commits W Repo gh;
  get_latest_release := @get_latest_release W Repo gh;
  get_tags := @get_tags W Repo gh;
  get_issues := @get_issues W Repo gh;
  repo_create_issue := create
|}.

(** ** Sample inputs *)

Module Examples.

Definition header : string :=
  "| Plugin | ES 3.2.3 | ES 3.2.9 |" ++ nl ++ "| --- | --- | --- |" ++ nl.

(** A release-tracked plugin, recorded in both version columns. *)
Definition release_row : string :=
  "| [PluginX](https://github.com/acme/pluginx/) | 1.0.0 | 1.0.0 |".

Definition plugin_x : Plugin :=
  mkPlugin "PluginX" "https://github.com/acme/pluginx" "acme" "pluginx"
           ["1.0.0"; "1.0.0"] false.

(** The first version cell is blank, the second holds a commit identifier. *)
Definition blank_first_row : string :=
  "| [Tracker](https://github.com/acme/tracker) |  | abcdef1 |".

Definition tracker : Plugin :=
  mkPlugin "Tracker" "https://github.com/acme/tracker" "acme" "tracker"
           [""; "abcdef1"] false.

(** The hosting pattern occurs deep in the path of another host. *)
Definition mirror_row : string :=
  "| [Mirror](https://example.org/a/b/github.com/x/y) | 2.1 | 2.1 |".

Definition mirror : Plugin :=
  mkPlugin "Mirror" "https://example.org/a/b/github.com/x/y" "x" "y"
           ["2.1"; "2.1"] false.

(** A link to a host that the pattern does not know. *)
Definition foreign_row : string :=
  "| [Other](https://example.org/acme/other) | 1.0 | 1.0 |".

(** A row that opts out, with a well-formed link all the same. *)
Definition no_source_row : string :=
  "| **NO SRC** [Closed](https://github.com/acme/closed) | 3.0 | 3.0 |".

(** The service knows [acme/pluginx], whose latest release carries a tag
    with two leading v, and the tracker repository. *)
Definition double_v_service : Mock.service :=
  Mock.mkService
    [Mock.mkRepo "acme/pluginx" "main" (Ok ["0123456789abcdef"])
                 (Ok "vv1.1.0") (Ok []);
     Mock.mkRepo "me/tracker" "main" (Ok []) (Fails Mock.not_found) (Ok [])]
    None None.

(** No release is published; the first tag has two leading v. *)
Definition double_v_tag_service : Mock.service :=
  Mock.mkService
    [Mock.mkRepo "acme/pluginx" "main" (Ok ["0123456789abcdef"])
                 (Fails Mock.not_found) (Ok ["vv2.0"; "v1.9"])]
    None None.

(** The same service with a plain tag, and a search for issues that fails. *)
Definition broken_search : GithubException :=
  mkGithubException 502 "502 Bad Gateway".

Definition failing_search_service : Mock.service :=
  Mock.mkService
    [Mock.mkRepo "acme/pluginx" "main" (Ok ["0123456789abcdef"])
                 (Ok "v1.1.0") (Ok []);
     Mock.mkRepo "me/tracker" "main" (Ok []) (Fails Mock.not_found) (Ok [])]
    (Some broken_search) None.

(** A commit-tracked plugin, and a service that lists no commit for it. *)
Definition commit_row : string :=
  "| [Hashy](https://github.com/acme/hashy) | abcdef1 | abcdef1 |".

Definition empty_listing_service : Mock.service :=
  Mock.mkService
    [Mock.mkRepo "acme/hashy" "main" (Ok []) (Fails Mock.not_found) (Ok [])]
    None None.

Definition args_for (token : option string) (dry : bool) : Args :=
  mkArgs "VERSIONS.md" token "me/tracker" dry.

Definition versions_md : string -> file :=
  fun path =>
    if String.eqb path "VERSIONS.md"
    then Text (header ++ release_row)
    else Missing.

Definition insertion_order : list string -> list string := nodup string_dec.

End Examples.

(** ** The documented layout of a table *)

Module Table.

(** The text of the cells of a row after its opening delimiter: each cell
    padded with one space on either side and closed by a delimiter. *)
Fixpoint cells_text (cells : list string) : string :=
  match cells with
  | [] => EmptyString
  | cell :: rest => " " ++ cell ++ " |" ++ cells_text rest
  end.

(** A delimiter-bounded row line. *)
Definition row (cells : list string) : string := "|" ++ cells_text cells.

(** The cells of a row as they stand, each closed by a delimiter, and the
    row line they make after an opening delimiter: nothing is added around
    a cell. *)
Fixpoint closed_cells (cells : list string) : string :=
  match cells with
  | [] => EmptyString
  | cell :: rest => cell ++ "|" ++ closed_cells rest
  end.

Definition bounded_row (cells : list string) : string :=
  "|" ++ closed_cells cells.

(** The markdown link of the first column. *)
Definition link (link_text url : string) : string :=
  "[" ++ link_text ++ "](" ++ url ++ ")".

(** The URL of a repository on the hosting service. *)
Definition repo_url (owner repo : string) : string :=
  "https://github.com/" ++ owner ++ "/" ++ repo.

(** Characters that a cell, a link text and a segment of the URL path may
    hold without ending the cell, the link text or the segment. *)
Definition cell_char : ascii -> bool := Re.not_char "|".

Definition text_char (c : ascii) : bool := Re.not_char "]" c && cell_char c.

Definition segment_char (c : ascii) : bool :=
  Re.not_char "/" c && Re.not_char ")" c && cell_char c.

(** The two lines that open a table, as [parse_readme] recognises them. *)
Definition is_header (raw : string) : bool :=
  PyStr.startswith (PyStr.strip raw) "| Plugin"
  || PyStr.startswith (PyStr.strip raw) "| ---".

(** A line that is part of a table: it starts with the delimiter once
    stripped. *)
Definition is_row (raw : string) : bool :=
  PyStr.startswith (PyStr.strip raw) "|".

(** What a line inside the table contributes. *)
Definition row_record (raw : string) : option Plugin :=
  if is_header raw then None else parse_row (PyStr.strip raw).

(** The elements that a partial function keeps, in order. *)
Fixpoint keep {A B : Type} (f : A -> option B) (l : list A) : list B :=
  match l with
  | [] => []
  | a :: rest =>
      match f a with
      | Some b => b :: keep f rest
      | None => keep f rest
      end
  end.

End Table.

(** ** Further sample inputs *)

Module Scenarios.

Definition tagged_repo : Mock.repo_data :=
  Mock.mkRepo "acme/pluginx" "main" (Ok ["0123456789abcdef"])
              (Fails Mock.not_found) (Ok ["vv2.0"; "v1.9"]).

Definition bad_gateway : GithubException :=
  mkGithubException 502 "502 Bad Gateway".

(** The release lookup fails for a reason other than a missing release. *)
Definition broken_repo : Mock.repo_data :=
  Mock.mkRepo "acme/pluginx" "main" (Ok ["0123456789abcdef"])
              (Fails bad_gateway) (Ok ["v0.9"]).

Definition broken_release_service : Mock.service :=
  Mock.mkService [broken_repo] None None.

(** A repository without release, tag or commit. *)
Definition bare_repo : Mock.repo_data :=
  Mock.mkRepo "acme/hashy" "main" (Ok []) (Fails Mock.not_found) (Ok []).

Definition hashy_by_release : Plugin :=
  mkPlugin "Hashy" "https://github.com/acme/hashy" "acme" "hashy"
           ["1.0"] false.

Definition hashy_by_commit : Plugin :=
  mkPlugin "Hashy" "https://github.com/acme/hashy" "acme" "hashy"
           ["abcdef1"; "abcdef1"] true.

Definition tracker_repo : Mock.repo_data :=
  Mock.mkRepo "me/tracker" "main" (Ok []) (Fails Mock.not_found) (Ok []).

(** A service on which everything works. *)
Definition healthy_service : Mock.service :=
  Mock.mkService
    [Mock.mkRepo "acme/pluginx" "main" (Ok ["0123456789abcdef"])
                 (Ok "v1.1.0") (Ok []);
     tracker_repo]
    None None.

(** A service that does not know the tracker repository. *)
Definition no_tracker_service : Mock.service :=
  Mock.mkService
    [Mock.mkRepo "acme/pluginx" "main" (Ok ["0123456789abcdef"])
                 (Ok "v1.1.0") (Ok [])]
    None None.

(** A service that refuses to create issues. *)
Definition refusing_service : Mock.service :=
  Mock.mkService (Mock.repos healthy_service) None (Some bad_gateway).

Definition args : Args :=
  mkArgs "VERSIONS.md" (Some "token") "me/tracker" false.

End Scenarios.

(** * Properties *)

(** ** Strings *)

Lemma str_app_nil_r (s : string) : s ++ "" = s.
Proof. induction s as [|c s IH]; simpl; [reflexivity | now rewrite IH]. Qed.

Lemma str_app_assoc (a b c : string) : (a ++ b) ++ c = a ++ (b ++ c).
Proof. induction a as [|x a IH]; simpl; [reflexivity | now rewrite IH]. Qed.

Lemma truthy_true (s : string) : PyStr.truthy s = true <-> s <> "".
Proof. destruct s; simpl; split; congruence. Qed.

Lemma truthy_false (s : string) : PyStr.truthy s = false <-> s = "".
Proof. destruct s; simpl; split; congruence. Qed.

Lemma span_sound (p : ascii -> bool) (s run rest : string) :
  Re.span p s = (run, rest) ->
  s = run ++ rest /\ PyStr.all_chars p run = true /\ Re.stops p rest.
Proof.
  revert run rest; induction s as [|c s IH]; simpl; intros run rest H.
  - inversion H; subst; simpl; auto.
  - destruct (p c) eqn:Hc.
    + destruct (Re.span p s) as [run' rest'] eqn:Hs.
      inversion H; subst; clear H.
      destruct (IH _ _ eq_refl) as (E & A & St).
      simpl; rewrite Hc, A; repeat split; auto; now rewrite E at 1.
    + inversion H; subst; simpl; auto.
Qed.

Lemma span_complete (p : ascii -> bool) (run rest : string) :
  PyStr.all_chars p run = true -> Re.stops p rest ->
  Re.span p (run ++ rest) = (run, rest).
Proof.
  induction run as [|c run IH]; simpl; intros A St.
  - destruct rest as [|c r]; simpl in *; [reflexivity | now rewrite St].
  - apply andb_true_iff in A as [Hc A]; rewrite Hc, (IH A St); reflexivity.
Qed.

Lemma literal_sound (lit s rest : string) :
  Re.literal lit s = Some rest -> s = lit ++ rest.
Proof.
  revert s; induction lit as [|a lit IH]; simpl; intros s H.
  - now inversion H.
  - destruct s as [|b s]; [discriminate|].
    destruct (Ascii.eqb a b) eqn:E; [|discriminate].
    apply Ascii.eqb_eq in E; subst; now rewrite (IH _ H).
Qed.

Lemma literal_cons (a b : ascii) (lit s : string) :
  Re.literal (String a lit) (String b s)
  = if Ascii.eqb a b then Re.literal lit s else None.
Proof. reflexivity. Qed.

Lemma literal_complete (lit rest : string) :
  Re.literal lit (lit ++ rest) = Some rest.
Proof.
  induction lit as [|a lit IH]; simpl; [reflexivity|].
  now rewrite Ascii.eqb_refl.
Qed.

(** [re.search] finds a match at some split of the text, and no earlier
    position has one. *)
Lemma search_sound {A : Type} (m : string -> option A) (s : string) (x : A) :
  Re.search m s = Some x ->
  exists pre post,
    s = pre ++ post /\ m post = Some x /\
    forall pre' post',
      s = pre' ++ post' -> (String.length pre' < String.length pre)%nat ->
      m post' = None.
Proof.
  induction s as [|c s IH]; simpl; intros H.
  - destruct (m "") eqn:E; [|discriminate].
    exists "", ""; repeat split; [congruence|].
    intros pre' post' _ L; simpl in L; lia.
  - destruct (m (String c s)) eqn:E.
    + exists "", (String c s); repeat split; [congruence|].
      intros pre' post' _ L; simpl in L; lia.
    + destruct (IH H) as (pre & post & Es & Em & Hleft).
      exists (String c pre), post; repeat split; [simpl; congruence | assumption |].
      intros pre' post' E' L.
      destruct pre' as [|c' pre']; simpl in *.
      * now subst post'.
      * inversion E'; subst c'. apply (Hleft pre' post'); [assumption | lia].
Qed.

Lemma search_none {A : Type} (m : string -> option A) (s : string) :
  Re.search m s = None ->
  forall pre post, s = pre ++ post -> m post = None.
Proof.
  induction s as [|c s IH]; simpl; intros H pre post E.
  - destruct (m "") eqn:Em; [discriminate|].
    destruct pre; simpl in E; [now subst | discriminate].
  - destruct (m (String c s)) eqn:Em; [discriminate|].
    destruct pre as [|c' pre]; simpl in E; [now subst|].
    inversion E; subst. now apply (IH H pre).
Qed.

Lemma search_skip {A : Type} (m : string -> option A) (pre post : string) :
  (forall pre1 pre2, pre = pre1 ++ pre2 -> pre2 <> "" ->
                     m (pre2 ++ post) = None) ->
  Re.search m (pre ++ post) = Re.search m post.
Proof.
  induction pre as [|c pre IH]; simpl; intros H; [reflexivity|].
  assert (E0 : m (String c pre ++ post) = None)
    by (apply (H "" (String c pre) eq_refl); discriminate).
  simpl in E0; rewrite E0.
  apply IH; intros pre1 pre2 E N.
  apply (H (String c pre1) pre2); [simpl; now rewrite E | assumption].
Qed.

Lemma search_here {A : Type} (m : string -> option A) (s : string) (x : A) :
  m s = Some x -> Re.search m s = Some x.
Proof. intros H; destruct s; simpl; now rewrite H. Qed.

(** ** The hosting-URL pattern *)

Lemma github_at_sound (s o r : string) :
  Re.github_at s = Some (o, r) ->
  exists rest,
    s = "github.com/" ++ o ++ "/" ++ r ++ rest
    /\ o <> "" /\ r <> ""
    /\ PyStr.all_chars Re.not_slash o = true
    /\ PyStr.all_chars Re.not_slash r = true
    /\ Re.stops Re.not_slash rest.
Proof.
  unfold Re.github_at; intros H.
  destruct (Re.literal "github.com/" s) as [s1|] eqn:L1; [|discriminate].
  apply literal_sound in L1.
  destruct (Re.span Re.not_slash s1) as [o' r1] eqn:S1.
  apply span_sound in S1 as (E1 & A1 & _).
  destruct o' as [|c o']; [discriminate|].
  destruct (Re.literal "/" r1) as [s2|] eqn:L2; [|discriminate].
  apply literal_sound in L2.
  destruct (Re.span Re.not_slash s2) as [r' rest] eqn:S2.
  apply span_sound in S2 as (E2 & A2 & St).
  destruct r' as [|d r']; [discriminate|].
  inversion H; subst o r; clear H.
  exists rest; subst; repeat split; try assumption; try discriminate.
Qed.

Lemma github_at_complete (o r rest : string) :
  o <> "" -> r <> "" ->
  PyStr.all_chars Re.not_slash o = true ->
  PyStr.all_chars Re.not_slash r = true ->
  Re.stops Re.not_slash rest ->
  Re.github_at ("github.com/" ++ o ++ "/" ++ r ++ rest) = Some (o, r).
Proof.
  intros No Nr Ao Ar St; unfold Re.github_at.
  rewrite literal_complete.
  rewrite (span_complete Re.not_slash o ("/" ++ r ++ rest) Ao)
    by reflexivity.
  destruct o as [|c o]; [congruence|].
  rewrite literal_complete.
  rewrite (span_complete Re.not_slash r rest Ar St).
  destruct r; [congruence | reflexivity].
Qed.

(** ** The link pattern *)

Lemma link_at_sound (s link_text url : string) :
  Re.link_at s = Some (link_text, url) ->
  exists rest,
    s = "[" ++ link_text ++ "](" ++ url ++ ")" ++ rest
    /\ link_text <> "" /\ url <> ""
    /\ PyStr.all_chars (Re.not_char "]") link_text = true
    /\ PyStr.all_chars (Re.not_char ")") url = true.
Proof.
  unfold Re.link_at; intros H.
  destruct (Re.literal "[" s) as [s1|] eqn:L1; [|discriminate].
  apply literal_sound in L1.
  destruct (Re.span (Re.not_char "]") s1) as [t r1] eqn:S1.
  apply span_sound in S1 as (E1 & A1 & _).
  destruct t as [|c t]; [discriminate|].
  destruct (Re.literal "](" r1) as [s2|] eqn:L2; [|discriminate].
  apply literal_sound in L2.
  destruct (Re.span (Re.not_char ")") s2) as [u r2] eqn:S2.
  apply span_sound in S2 as (E2 & A2 & _).
  destruct u as [|d u]; [discriminate|].
  destruct (Re.literal ")" r2) as [rest|] eqn:L3; [|discriminate].
  apply literal_sound in L3.
  inversion H; subst link_text url; clear H.
  exists rest; subst; repeat split; try assumption; discriminate.
Qed.

Lemma link_at_complete (link_text url rest : string) :
  link_text <> "" -> url <> "" ->
  PyStr.all_chars (Re.not_char "]") link_text = true ->
  PyStr.all_chars (Re.not_char ")") url = true ->
  Re.link_at ("[" ++ link_text ++ "](" ++ url ++ ")" ++ rest)
  = Some (link_text, url).
Proof.
  intros Nt Nu At Au; unfold Re.link_at.
  rewrite literal_complete.
  rewrite (span_complete (Re.not_char "]") link_text
             ("](" ++ url ++ ")" ++ rest) At) by reflexivity.
  destruct link_text as [|c t]; [congruence|].
  rewrite literal_complete.
  rewrite (span_complete (Re.not_char ")") url (")" ++ rest) Au)
    by reflexivity.
  destruct url as [|d u]; [congruence|].
  now rewrite literal_complete.
Qed.

(** A match needs the letter g first. *)
Lemma github_at_first (c : ascii) (s : string) :
  Ascii.eqb c "g" = false -> Re.github_at (String c s) = None.
Proof.
  intros H; unfold Re.github_at.
  rewrite literal_cons, Ascii.eqb_sym, H; reflexivity.
Qed.

(** ** The table parser *)

Lemma all_chars_app (p : ascii -> bool) (a b : string) :
  PyStr.all_chars p (a ++ b) = PyStr.all_chars p a && PyStr.all_chars p b.
Proof.
  induction a as [|c a IH]; simpl; [reflexivity|].
  now rewrite IH, andb_assoc.
Qed.

Lemma str_length_app (a b : string) :
  String.length (a ++ b) = (String.length a + String.length b)%nat.
Proof. induction a as [|c a IH]; simpl; [reflexivity | now rewrite IH]. Qed.

(** What [rstrip] leaves does not end in a stripped character. *)
Lemma rstrip_by_last (p : ascii -> bool) (s pre : string) (c : ascii) :
  PyStr.rstrip_by p s = pre ++ String c "" -> p c = false.
Proof.
  revert pre; induction s as [|a s IH]; simpl; intros pre H.
  - destruct pre; discriminate.
  - destruct (PyStr.rstrip_by p s) as [|b r] eqn:R.
    + destruct (p a) eqn:Pa.
      * destruct pre; discriminate.
      * destruct pre as [|x pre]; simpl in H.
        -- now inversion H; subst.
        -- inversion H. destruct pre; discriminate.
    + destruct pre as [|x pre]; simpl in H.
      * inversion H.
      * inversion H; subst. now apply (IH pre).
Qed.

(** On a stripped cell the pattern of the source and the whole-string
    reading of [^[0-9a-f]{7,}$] agree. *)
Lemma match_commit_hash_stripped (s : string) :
  Re.match_commit_hash (PyStr.strip s) = Spec.commit_pattern (PyStr.strip s).
Proof.
  unfold Re.match_commit_hash, Spec.commit_pattern.
  destruct (Re.span Re.is_hex_lower (PyStr.strip s)) as [digits rest] eqn:Sp.
  apply span_sound in Sp as (E & A & St).
  rewrite E, all_chars_app, A, str_length_app.
  destruct rest as [|c rest]; simpl.
  - rewrite Nat.add_0_r; now rewrite andb_true_r.
  - simpl in St; rewrite St; simpl.
    destruct rest as [|d rest].
    + destruct (Ascii.eqb c "010") eqn:Ec.
      * apply Ascii.eqb_eq in Ec; subst c.
        unfold PyStr.strip in E.
        now apply rstrip_by_last in E.
      * now rewrite !andb_false_r.
    + simpl; destruct (Ascii.eqb c "010"); now rewrite !andb_false_r.
Qed.

(** How a row that yields a record was read. *)
Lemma parse_row_inv (line : string) (p : Plugin) :
  parse_row line = Some p ->
  exists plugin_cell v0 vrest url,
    row_cells line = plugin_cell :: v0 :: vrest
    /\ PyStr.contains NO_SRC plugin_cell = false
    /\ Re.search Re.link_at plugin_cell = Some (name p, url)
    /\ github_url p = PyStr.rstrip_char "/" url
    /\ Re.search Re.github_at (github_url p) = Some (owner p, repo p)
    /\ versions p = map PyStr.strip (v0 :: vrest)
    /\ is_commit_hash p = commit_hash_flag (versions p).
Proof.
  unfold parse_row; intros H.
  destruct (row_cells line) as [|plugin_cell [|v0 vrest]]; try discriminate.
  destruct (PyStr.contains NO_SRC plugin_cell) eqn:Hsrc; [discriminate|].
  destruct (Re.search Re.link_at plugin_cell) as [[nm url]|] eqn:Hl;
    [|discriminate].
  destruct (Re.search Re.github_at (PyStr.rstrip_char "/" url))
    as [[o r]|] eqn:Hg; [|discriminate].
  inversion H; subst p; clear H; simpl.
  exists plugin_cell, v0, vrest, url; repeat split; assumption.
Qed.

Lemma in_append_opt {A : Type} (l : list A) (o : option A) (a : A) :
  In a (append_opt l o) -> In a l \/ o = Some a.
Proof.
  destruct o as [b|]; simpl; [|auto].
  intros H; apply in_app_or in H as [H|[H|[]]]; [auto | subst; auto].
Qed.

(** Every record of the result was there before or comes from a row line of
    the remaining text. *)
Lemma parse_lines_in (lines : list string) (in_table : bool)
      (plugins : list Plugin) (p : Plugin) :
  In p (parse_lines lines in_table plugins) ->
  In p plugins
  \/ exists raw, In raw lines /\ parse_row (PyStr.strip raw) = Some p.
Proof.
  revert in_table plugins; induction lines as [|raw rest IH];
    simpl; intros in_table plugins H; [auto|].
  destruct (parse_line in_table raw) as [it' appended|] eqn:Hl; [|auto].
  apply IH in H as [H|(raw' & Hin & Hrow)].
  - apply in_append_opt in H as [H|H]; [auto|]. subst appended.
    right; exists raw; split; [now left|].
    unfold parse_line in Hl.
    repeat match type of Hl with
           | (if ?b then _ else _) = _ => destruct b
           end; congruence.
  - right; exists raw'; split; [now right | assumption].
Qed.

Lemma parse_readme_in (content : string) (p : Plugin) :
  In p (parse_readme content) ->
  exists raw,
    In raw (PyStr.split "010" content)
    /\ parse_row (PyStr.strip raw) = Some p.
Proof.
  intros H; apply parse_lines_in in H as [[]|H]; exact H.
Qed.

(** ** Claims about the parser *)

(** C8: every record of a parsed table has at least one recorded version and
    a non-empty owner and repository name, which are the two groups of a
    match of the hosting pattern in its URL.  A row line yields such a record
    or nothing ([parse_row] answers with an option). *)
Theorem parsed_plugin_invariant (content : string) (p : Plugin) :
  In p (parse_readme content) ->
  versions p <> [] /\ owner p <> "" /\ repo p <> ""
  /\ Re.search Re.github_at (github_url p) = Some (owner p, repo p).
Proof.
  intros H.
  apply parse_readme_in in H as (raw & _ & Hrow).
  apply parse_row_inv in Hrow
    as (cell & v0 & vrest & url & _ & _ & _ & _ & Hg & Hv & _).
  destruct (search_sound _ _ _ Hg) as (pre & post & _ & Hat & _).
  apply github_at_sound in Hat as (rest & _ & No & Nr & _).
  rewrite Hv; repeat split; try assumption; discriminate.
Qed.

Lemma parsed_plugin_invariant_witness :
  In Examples.plugin_x (parse_readme (Examples.header ++ Examples.release_row))
  /\ versions Examples.plugin_x <> []
  /\ owner Examples.plugin_x <> "" /\ repo Examples.plugin_x <> ""
  /\ Re.search Re.github_at (github_url Examples.plugin_x)
     = Some (owner Examples.plugin_x, repo Examples.plugin_x).
Proof.
  split.
  - vm_compute; left; reflexivity.
  - apply (parsed_plugin_invariant
             (Examples.header ++ Examples.release_row) Examples.plugin_x).
    vm_compute; left; reflexivity.
Defined.

(** C9: a line whose first cell contains the no-source marker never appends
    a record, whatever the rest of the line holds and whatever the state of
    the scan; and every record of a parsed table comes from a line whose
    first cell is free of the marker. *)
Theorem no_source_rows_skipped :
  (forall (in_table : bool) (raw cell : string) (cells : list string),
      row_cells (PyStr.strip raw) = cell :: cells ->
      PyStr.contains NO_SRC cell = true ->
      parse_row (PyStr.strip raw) = None
      /\ (parse_line in_table raw = Break
          \/ exists in_table', parse_line in_table raw = Continue in_table' None))
  /\ (forall (content : string) (p : Plugin),
         In p (parse_readme content) ->
         exists raw cell cells,
           In raw (PyStr.split "010" content)
           /\ parse_row (PyStr.strip raw) = Some p
           /\ row_cells (PyStr.strip raw) = cell :: cells
           /\ PyStr.contains NO_SRC cell = false).
Proof.
  split.
  - intros in_table raw cell cells Hc Hm.
    assert (Hrow : parse_row (PyStr.strip raw) = None).
    { unfold parse_row; rewrite Hc.
      destruct cells; [reflexivity | now rewrite Hm]. }
    split; [assumption|].
    unfold parse_line; rewrite Hrow.
    repeat match goal with
           | |- context [if ?b then _ else _] => destruct b
           end; eauto.
  - intros content p H.
    apply parse_readme_in in H as (raw & Hin & Hrow).
    destruct (parse_row_inv _ _ Hrow)
      as (cell & v0 & vrest & url & Hc & Hm & _).
    exists raw, cell, (v0 :: vrest); auto.
Qed.

Lemma no_source_rows_skipped_witness :
  parse_row (PyStr.strip Examples.no_source_row) = None
  /\ (parse_line true Examples.no_source_row = Break
      \/ exists in_table',
          parse_line true Examples.no_source_row = Continue in_table' None).
Proof.
  apply (proj1 no_source_rows_skipped true Examples.no_source_row
               "**NO SRC** [Closed](https://github.com/acme/closed)"
               ["3.0"; "3.0"]);
    vm_compute; reflexivity.
Defined.

Lemma commit_pattern_nonempty (s : string) :
  Spec.commit_pattern s = true -> PyStr.truthy s = true.
Proof. destruct s; [discriminate | reflexivity]. Qed.

Lemma commit_hash_flag_stripped (v0 : string) (rest : list string) :
  commit_hash_flag (PyStr.strip v0 :: rest)
  = Spec.commit_pattern (PyStr.strip v0).
Proof.
  simpl; rewrite match_commit_hash_stripped.
  destruct (Spec.commit_pattern (PyStr.strip v0)) eqn:E.
  - now rewrite (commit_pattern_nonempty _ E).
  - apply andb_false_r.
Qed.

(** C1, as the code has it: the flag of a parsed record is decided by its
    first recorded version alone.  It is true exactly when that entry, empty
    or not, is of the form [^[0-9a-f]{7,}$]; so it agrees with the first
    non-empty entry when the first entry is not empty, and it is false when
    the first entry is empty, whatever the later entries hold. *)
Theorem commit_flag_from_first_version (content : string) (p : Plugin) :
  In p (parse_readme content) ->
  exists v0 rest,
    versions p = v0 :: rest
    /\ (is_commit_hash p = true <-> Spec.commit_pattern v0 = true)
    /\ (v0 <> "" ->
        is_commit_hash p = Spec.uses_commit_identifiers (versions p))
    /\ (v0 = "" -> is_commit_hash p = false).
Proof.
  intros H.
  apply parse_readme_in in H as (raw & _ & Hrow).
  apply parse_row_inv in Hrow
    as (cell & v0 & vrest & url & _ & _ & _ & _ & _ & Hv & Hf).
  simpl in Hv.
  exists (PyStr.strip v0), (map PyStr.strip vrest).
  rewrite Hf, Hv, commit_hash_flag_stripped.
  repeat split; try tauto.
  - intros N; unfold Spec.uses_commit_identifiers, Spec.first_non_empty.
    simpl. apply truthy_true in N; now rewrite N.
  - intros E; now rewrite E.
Qed.

Lemma commit_flag_from_first_version_witness :
  In Examples.tracker
     (parse_readme (Examples.header ++ Examples.blank_first_row))
  /\ exists v0 rest,
      versions Examples.tracker = v0 :: rest
      /\ (is_commit_hash Examples.tracker = true
          <-> Spec.commit_pattern v0 = true)
      /\ (v0 <> "" ->
          is_commit_hash Examples.tracker
          = Spec.uses_commit_identifiers (versions Examples.tracker))
      /\ (v0 = "" -> is_commit_hash Examples.tracker = false).
Proof.
  split.
  - vm_compute; left; reflexivity.
  - apply (commit_flag_from_first_version
             (Examples.header ++ Examples.blank_first_row) Examples.tracker).
    vm_compute; left; reflexivity.
Defined.

(** C1 as stated fails: the row with a blank first version cell and a commit
    identifier in the second is parsed into a record whose flag is false,
    although its first non-empty recorded version is of the commit form. *)
Lemma commit_flag_ignores_later_versions :
  In Examples.tracker
     (parse_readme (Examples.header ++ Examples.blank_first_row))
  /\ is_commit_hash Examples.tracker = false
  /\ Spec.first_non_empty (versions Examples.tracker) = Some "abcdef1"
  /\ Spec.commit_pattern "abcdef1" = true
  /\ ~ (is_commit_hash Examples.tracker = true
        <-> Spec.uses_commit_identifiers (versions Examples.tracker) = true).
Proof.
  repeat split; try (vm_compute; auto; fail).
  vm_compute; intros [_ H]; specialize (H eq_refl); discriminate.
Qed.

(** ** The hosting pattern and the path of the URL *)

Lemma split_no_sep (sep : ascii) (s : string) :
  PyStr.all_chars (Re.not_char sep) s = true -> PyStr.split sep s = [s].
Proof.
  induction s as [|c s IH]; simpl; [reflexivity|].
  unfold Re.not_char at 1; intros H.
  apply andb_true_iff in H as [Hc H].
  apply negb_true_iff in Hc; rewrite Hc, (IH H); reflexivity.
Qed.

Lemma split_app_sep (sep : ascii) (s t : string) :
  PyStr.all_chars (Re.not_char sep) s = true ->
  PyStr.split sep (s ++ String sep t) = s :: PyStr.split sep t.
Proof.
  induction s as [|c s IH]; simpl.
  - now rewrite Ascii.eqb_refl.
  - unfold Re.not_char at 1; intros H.
    apply andb_true_iff in H as [Hc H].
    apply negb_true_iff in Hc; rewrite Hc, (IH H); reflexivity.
Qed.

(** On [https://github.com/<a>/<b>] the pattern captures the two path
    segments after the host. *)
Lemma github_url_plain (a b : string) :
  a <> "" -> b <> "" ->
  PyStr.all_chars Re.not_slash a = true ->
  PyStr.all_chars Re.not_slash b = true ->
  Re.search Re.github_at ("https://github.com/" ++ a ++ "/" ++ b)
  = Some (a, b)
  /\ Spec.path_segments ("https://github.com/" ++ a ++ "/" ++ b) = [a; b].
Proof.
  intros Na Nb Aa Ab; split.
  - change ("https://github.com/" ++ a ++ "/" ++ b)
      with ("https://" ++ ("github.com/" ++ a ++ "/" ++ b)).
    rewrite search_skip.
    + apply search_here.
      rewrite <- (str_app_nil_r b) at 1.
      now apply github_at_complete.
    + intros pre1 pre2 E N.
      destruct pre2 as [|c pre2]; [congruence|].
      apply github_at_first.
      assert (In c (list_ascii_of_string "https://")) as Hc.
      { rewrite E, <- (string_of_list_ascii_of_string pre1),
          <- (string_of_list_ascii_of_string (String c pre2)).
        clear. induction (list_ascii_of_string pre1); simpl; auto. }
      simpl in Hc.
      repeat (destruct Hc as [<-|Hc]; [reflexivity|]); destruct Hc.
  - unfold Spec.path_segments, Spec.after_scheme.
    change (tl (PyStr.split "/"
                  ("github.com" ++ String "/" (a ++ String "/" b)))
            = [a; b]).
    rewrite split_app_sep by reflexivity.
    rewrite split_app_sep by assumption.
    rewrite split_no_sep by assumption.
    reflexivity.
Qed.

(** C3, as the code has it: the owner and repository name of a record are
    the two slash-free segments that follow the leftmost occurrence of
    [github.com/] in the link URL that has two such segments after it,
    wherever in the URL that occurrence stands.  For a URL of the plain form
    [https://github.com/<owner>/<repo>] they are the two path segments after
    the host.  A row whose link URL, trailing slashes removed, holds no such
    occurrence yields no record. *)
Theorem owner_repo_from_hosting_pattern :
  (forall (content : string) (p : Plugin),
      In p (parse_readme content) ->
      exists pre rest,
        github_url p
        = pre ++ "github.com/" ++ owner p ++ "/" ++ repo p ++ rest
        /\ owner p <> "" /\ repo p <> ""
        /\ PyStr.all_chars Re.not_slash (owner p) = true
        /\ PyStr.all_chars Re.not_slash (repo p) = true
        /\ Re.stops Re.not_slash rest
        /\ (forall pre' post',
               github_url p = pre' ++ post' ->
               (String.length pre' < String.length pre)%nat ->
               Re.github_at post' = None))
  /\ (forall (content : string) (p : Plugin) (a b : string),
         In p (parse_readme content) ->
         github_url p = "https://github.com/" ++ a ++ "/" ++ b ->
         a <> "" -> b <> "" ->
         PyStr.all_chars Re.not_slash a = true ->
         PyStr.all_chars Re.not_slash b = true ->
         owner p = a /\ repo p = b
         /\ Spec.path_segments (github_url p) = [owner p; repo p])
  /\ (forall (line cell plugin_name url : string) (cells : list string),
         row_cells line = cell :: cells ->
         Re.search Re.link_at cell = Some (plugin_name, url) ->
         Re.search Re.github_at (PyStr.rstrip_char "/" url) = None ->
         parse_row line = None).
Proof.
  split; [|split].
  - intros content p H.
    apply parse_readme_in in H as (raw & _ & Hrow).
    apply parse_row_inv in Hrow
      as (cell & v0 & vrest & url & _ & _ & _ & _ & Hg & _).
    destruct (search_sound _ _ _ Hg) as (pre & post & Es & Hat & Hleft).
    apply github_at_sound in Hat as (rest & Ep & No & Nr & Ao & Ar & St).
    exists pre, rest; subst post; repeat split; assumption.
  - intros content p a b H Eu Na Nb Aa Ab.
    apply parse_readme_in in H as (raw & _ & Hrow).
    apply parse_row_inv in Hrow
      as (cell & v0 & vrest & url & _ & _ & _ & _ & Hg & _).
    destruct (github_url_plain a b Na Nb Aa Ab) as [Hs Hp].
    rewrite Eu, Hs in Hg; injection Hg as Ho Hr.
    repeat split; [congruence | congruence |].
    rewrite Eu, <- Ho, <- Hr; exact Hp.
  - intros line cell plugin_name url cells Hc Hl Hg.
    unfold parse_row; rewrite Hc.
    destruct cells; [reflexivity|].
    destruct (PyStr.contains NO_SRC cell); [reflexivity|].
    now rewrite Hl, Hg.
Qed.

Lemma owner_repo_from_hosting_pattern_witness :
  (In Examples.plugin_x
      (parse_readme (Examples.header ++ Examples.release_row))
   /\ owner Examples.plugin_x = "acme" /\ repo Examples.plugin_x = "pluginx"
   /\ Spec.path_segments (github_url Examples.plugin_x)
      = [owner Examples.plugin_x; repo Examples.plugin_x])
  /\ parse_row Examples.foreign_row = None.
Proof.
  split; [split|].
  - vm_compute; left; reflexivity.
  - apply (proj1 (proj2 owner_repo_from_hosting_pattern)
                 (Examples.header ++ Examples.release_row)
                 Examples.plugin_x "acme" "pluginx");
      try (vm_compute; auto; fail); discriminate.
  - apply (proj2 (proj2 owner_repo_from_hosting_pattern)
                 Examples.foreign_row
                 "[Other](https://example.org/acme/other)"
                 "Other" "https://example.org/acme/other" ["1.0"; "1.0"]);
      vm_compute; reflexivity.
Defined.

(** C3 as stated fails: the link of this row has the host [example.org] and
    the path segments [a], [b], ...; the record takes its owner and
    repository name from the fourth and fifth segment. *)
Lemma owner_repo_taken_from_deeper_path :
  In Examples.mirror
     (parse_readme (Examples.header ++ Examples.mirror_row))
  /\ Spec.path_segments (github_url Examples.mirror)
     = ["a"; "b"; "github.com"; "x"; "y"]
  /\ owner Examples.mirror = "x" /\ repo Examples.mirror = "y"
  /\ [owner Examples.mirror; repo Examples.mirror]
     <> firstn 2 (Spec.path_segments (github_url Examples.mirror)).
Proof.
  repeat split; try (vm_compute; auto; fail).
  vm_compute; discriminate.
Qed.

(** ** The comparator *)

Lemma in_alphabet (c : ascii) : In c Spec.alphabet.
Proof.
  rewrite <- (ascii_nat_embedding c); apply in_map, in_seq.
  pose proof (nat_ascii_bounded c); lia.
Qed.

Lemma same_letter_table :
  forallb
    (fun a =>
       forallb
         (fun b =>
            Bool.eqb (Ascii.eqb (PyStr.lower_char a) (PyStr.lower_char b))
                     (Spec.same_letter a b))
         Spec.alphabet)
    Spec.alphabet
  = true.
Proof. vm_compute; reflexivity. Qed.

(** Two characters have the same lower-case form exactly when they are the
    same letter. *)
Lemma lower_char_same_letter (a b : ascii) :
  Ascii.eqb (PyStr.lower_char a) (PyStr.lower_char b) = Spec.same_letter a b.
Proof.
  pose proof same_letter_table as H.
  rewrite forallb_forall in H; specialize (H a (in_alphabet a)).
  rewrite forallb_forall in H; specialize (H b (in_alphabet b)).
  now apply Bool.eqb_prop in H.
Qed.

Lemma lower_equal_ignoring_case (s t : string) :
  String.eqb (PyStr.lower s) (PyStr.lower t) = Spec.equal_ignoring_case s t.
Proof.
  revert t; induction s as [|a s IH]; intros [|b t]; simpl;
    try reflexivity.
  now rewrite lower_char_same_letter, IH.
Qed.

(** C2: in commit mode the answer is true exactly when the two strings
    differ once the case of letters is ignored (place by place, a letter and
    its capital count as the same); in release mode it is the strict order
    of the two parsed versions when both parse, and plain string inequality
    as soon as one of them does not.  The function is total: no case is
    left to an exception. *)
Theorem is_version_outdated_cases {pk : Packaging} (current latest : string) :
  (is_version_outdated current latest true = true
   <-> Spec.equal_ignoring_case current latest = false)
  /\ (is_version_outdated current latest true = true
      <-> PyStr.lower current <> PyStr.lower latest)
  /\ (forall vc vl,
         version_parse current = Some vc ->
         version_parse latest = Some vl ->
         (is_version_outdated current latest false = true
          <-> version_lt vc vl = true))
  /\ (version_parse current = None \/ version_parse latest = None ->
      (is_version_outdated current latest false = true
       <-> current <> latest)).
Proof.
  unfold is_version_outdated; split; [|split; [|split]].
  - now rewrite lower_equal_ignoring_case, negb_true_iff.
  - rewrite negb_true_iff; apply String.eqb_neq.
  - intros vc vl Hc Hl; rewrite Hc, Hl; reflexivity.
  - intros H.
    assert (E : match version_parse current with
                | Some vc =>
                    match version_parse latest with
                    | Some vl => version_lt vc vl
                    | None => negb (String.eqb current latest)
                    end
                | None => negb (String.eqb current latest)
                end = negb (String.eqb current latest)).
    { destruct H as [H|H]; rewrite H;
        [|destruct (version_parse current)]; reflexivity. }
    rewrite E, negb_true_iff; apply String.eqb_neq.
Qed.

Lemma is_version_outdated_cases_witness :
  (@is_version_outdated Mock.dotted "1.2.0" "1.3.0" false = true
   <-> Mock.dotted_lt [1; 2; 0]%N [1; 3; 0]%N = true)
  /\ (@is_version_outdated Mock.dotted "banana" "1.0.0" false = true
      <-> "banana" <> "1.0.0")
  /\ @is_version_outdated Mock.dotted "abcdef1" "ABCDEF2" true = true
  /\ @is_version_outdated Mock.dotted "ABCdef1" "abcDEF1" true <> true.
Proof.
  split; [|split; [|split]].
  - apply (proj1 (proj2 (proj2 (@is_version_outdated_cases
                                  Mock.dotted "1.2.0" "1.3.0"))));
      vm_compute; reflexivity.
  - apply (proj2 (proj2 (proj2 (@is_version_outdated_cases
                                  Mock.dotted "banana" "1.0.0")))).
    left; vm_compute; reflexivity.
  - apply (proj1 (@is_version_outdated_cases
                    Mock.dotted "abcdef1" "ABCDEF2")).
    vm_compute; reflexivity.
  - intros H.
    apply (proj1 (@is_version_outdated_cases
                    Mock.dotted "ABCdef1" "abcDEF1")) in H.
    vm_compute in H; discriminate.
Defined.

(** The comparison of commit identifiers on strings that differ in case
    only, in case and in a digit, and in an accented letter. *)
Example commit_mode_samples :
  @is_version_outdated Mock.dotted "ABCDEF1" "abcdef1" true = false
  /\ @is_version_outdated Mock.dotted "AbCdEf1" "aBcDeF2" true = true
  /\ @is_version_outdated Mock.dotted "abcdef1" "abcdef1 " true = true
  /\ @is_version_outdated Mock.dotted
       (String "201" "tude") (String "233" "TUDE") true = false
  /\ @is_version_outdated Mock.dotted "ABCDEF1" "abcdef1" false = true.
Proof. vm_compute; auto. Qed.

(** The marker is found wherever it stands in the first cell. *)
Example marker_after_the_link :
  parse_row
    "| [Closed](https://github.com/acme/closed) **NO SRC** | 3.0 | 3.0 |"
  = None
  /\ parse_row "| [Closed](https://github.com/acme/closed) | 3.0 | 3.0 |"
     <> None.
Proof. vm_compute; split; [reflexivity | discriminate]. Qed.

Lemma scan_versions_true {pk : Packaging} (versions : list string)
      (latest : string) (mode : bool) :
  fst (scan_versions versions latest mode) = true
  <-> exists current,
      In current versions /\ current <> ""
      /\ is_version_outdated current latest mode = true.
Proof.
  induction versions as [|c rest IH]; simpl.
  - split; [discriminate | intros (x & [] & _)].
  - destruct (PyStr.truthy c && is_version_outdated c latest mode) eqn:E.
    + split; [intros _ | reflexivity].
      apply andb_true_iff in E as [Et Eo].
      exists c; repeat split; [now left | now apply truthy_true | exact Eo].
    + destruct (scan_versions rest latest mode) as [flag visited]; simpl in *.
      rewrite IH; split.
      * intros (x & Hin & Hne & Ho); exists x; auto.
      * intros (x & [->|Hin] & Hne & Ho); [|exists x; auto].
        apply truthy_true in Hne; rewrite Hne, Ho in E; discriminate.
Qed.

Lemma scan_versions_stops {pk : Packaging} (before after : list string)
      (current latest : string) (mode : bool) :
  (forall c, In c before ->
             c = "" \/ is_version_outdated c latest mode = false) ->
  current <> "" ->
  is_version_outdated current latest mode = true ->
  scan_versions (before ++ current :: after)%list latest mode
  = (true, (before ++ [current])%list).
Proof.
  intros Hb Hne Ho; induction before as [|c before IH]; simpl.
  - apply truthy_true in Hne; now rewrite Hne, Ho.
  - assert (PyStr.truthy c && is_version_outdated c latest mode = false)
      as ->.
    { destruct (Hb c (or_introl eq_refl)) as [->|E];
        [reflexivity | rewrite E; apply andb_false_r]. }
    rewrite IH; [reflexivity|].
    intros x Hin; apply Hb; now right.
Qed.

Lemma scan_versions_exhausts {pk : Packaging} (versions : list string)
      (latest : string) (mode : bool) :
  fst (scan_versions versions latest mode) = false ->
  scan_versions versions latest mode = (false, versions).
Proof.
  induction versions as [|c rest IH]; simpl; [reflexivity|].
  destruct (PyStr.truthy c && is_version_outdated c latest mode);
    [discriminate|].
  destruct (scan_versions rest latest mode) as [flag visited]; simpl in *.
  intros ->; injection (IH eq_refl) as ->; reflexivity.
Qed.

(** ** Runs of the program *)

Lemma count_app (f : event -> bool) (a b : list event) :
  count f (a ++ b)%list = (count f a + count f b)%nat.
Proof. unfold count; now rewrite filter_app, List.length_app. Qed.

Lemma count_nil (f : event -> bool) : count f [] = 0%nat.
Proof. reflexivity. Qed.

Lemma count_cons (f : event -> bool) (e : event) (l : list event) :
  count f (e :: l) = ((if f e then 1 else 0) + count f l)%nat.
Proof. unfold count; simpl; destruct (f e); reflexivity. Qed.

Lemma count_zero_not_in (f : event -> bool) (l : list event) (e : event) :
  count f l = 0%nat -> f e = true -> ~ In e l.
Proof.
  intros Hc He Hin.
  assert (Hf : In e (filter f l)) by (apply filter_In; auto).
  unfold count in Hc; destruct (filter f l); [destruct Hf | discriminate].
Qed.

Lemma fetch_error_line (x : string) :
  is_fetch_error (Stderr (("Error fetching version for " ++ x) ++ nl)) = true.
Proof.
  unfold is_fetch_error, PyStr.startswith; simpl.
  destruct (x ++ nl); reflexivity.
Qed.

Lemma search_error_line (x : string) :
  is_fetch_error
    (Stderr (("Error checking for existing issues: " ++ x) ++ nl)) = false.
Proof. reflexivity. Qed.

Lemma create_error_line (x : string) :
  is_fetch_error (Stderr (("Error creating issue for " ++ x) ++ nl)) = false.
Proof. reflexivity. Qed.

(** Goals about the number of events of a kind in a log that is written out. *)
Ltac counts :=
  rewrite ?count_app, ?count_cons, ?count_nil,
    ?fetch_error_line, ?search_error_line, ?create_error_line;
  simpl; lia.

Section ProgramFacts.
Context {pk : Packaging} {W Repo : Type} {gh : Github W Repo}.
Variable file_system : string -> file.
Variable set_iter : list string -> list string.

Lemma runs_ret {A : Type} (a : A) (Q : outcome A -> list event -> Prop) :
  Q (Return a) [] -> runs (W := W) (ret a) Q.
Proof.
  intros H s; exists (Return a), [], (world s).
  rewrite app_nil_r; destruct s; auto.
Qed.

Lemma runs_raise {A : Type} (e : exn) (Q : outcome A -> list event -> Prop) :
  Q (Raise e) [] -> runs (W := W) (raise e) Q.
Proof.
  intros H s; exists (Raise e), [], (world s).
  rewrite app_nil_r; destruct s; auto.
Qed.

Lemma runs_emit (e : event) (Q : outcome unit -> list event -> Prop) :
  Q (Return tt) [e] -> runs (W := W) (emit e) Q.
Proof. intros H s; exists (Return tt), [e], (world s); auto. Qed.

Lemma runs_call {A : Type} (r : request) (op : W -> reply A * W)
      (Q : outcome A -> list event -> Prop) :
  (forall a, Q (Return a) [Request r]) ->
  (forall e, Q (Raise (EGithub e)) [Request r]) ->
  runs (call r op) Q.
Proof.
  intros Hok Herr s; unfold call.
  destruct (op (world s)) as [[a|e] w'].
  - exists (Return a), [Request r], w'; auto.
  - exists (Raise (EGithub e)), [Request r], w'; auto.
Qed.

Lemma runs_bind {A B : Type} (m : M W A) (k : A -> M W B)
      (Q : outcome B -> list event -> Prop) :
  runs m (fun o t1 =>
            match o with
            | Return a => runs (k a) (fun o2 t2 => Q o2 (t1 ++ t2)%list)
            | Raise e => Q (Raise e) t1
            end) ->
  runs (bind m k) Q.
Proof.
  intros H s; unfold bind.
  destruct (H s) as (o & t1 & w1 & -> & Hk).
  destruct o as [a|e].
  - destruct (Hk (mkState w1 (log s ++ t1)%list))
      as (o2 & t2 & w2 & -> & HQ).
    exists o2, (t1 ++ t2)%list, w2; simpl; rewrite app_assoc; auto.
  - exists (Raise e), t1, w1; auto.
Qed.

Lemma runs_try {A : Type} (m : M W A) (h : GithubException -> M W A)
      (Q : outcome A -> list event -> Prop) :
  runs m (fun o t1 =>
            match o with
            | Raise (EGithub e) =>
                runs (h e) (fun o2 t2 => Q o2 (t1 ++ t2)%list)
            | _ => Q o t1
            end) ->
  runs (try_except m h) Q.
Proof.
  intros H s; unfold try_except.
  destruct (H s) as (o & t1 & w1 & -> & Hk).
  destruct o as [a|[e| | |c]].
  - exists (Return a), t1, w1; auto.
  - destruct (Hk (mkState w1 (log s ++ t1)%list))
      as (o2 & t2 & w2 & -> & HQ).
    exists o2, (t1 ++ t2)%list, w2; simpl; rewrite app_assoc; auto.
  - exists (Raise EIndexError), t1, w1; auto.
  - exists (Raise EReadError), t1, w1; auto.
  - exists (Raise (ESystemExit c)), t1, w1; auto.
Qed.

Lemma runs_weaken {A : Type} (m : M W A)
      (Q Q' : outcome A -> list event -> Prop) :
  runs m Q -> (forall o t, Q o t -> Q' o t) -> runs m Q'.
Proof.
  intros H Himp s; destruct (H s) as (o & t & w' & E & HQ).
  exists o, t, w'; auto.
Qed.

Ltac wp :=
  repeat first
    [ apply runs_bind
    | apply runs_try
    | apply runs_call; intros
    | apply runs_emit
    | apply runs_ret
    | apply runs_raise ];
  cbv beta iota.

(** The resolver ends in one of three ways: a version, the reported failure
    [None] with one line on the error stream, or the uncaught [IndexError]
    of an empty commit listing.  It never asks for an issue to be created. *)
Lemma get_latest_version_runs (plugin : Plugin) :
  runs (get_latest_version plugin)
       (fun o tail =>
          count is_create tail = 0%nat
          /\ ((o = Return None /\ count is_fetch_error tail = 1%nat)
              \/ (((exists v, o = Return (Some v)) \/ o = Raise EIndexError)
                  /\ count is_fetch_error tail = 0%nat))).
Proof.
  unfold get_latest_version, print_err.
  apply runs_try, runs_bind, runs_call.
  - intros r. destruct (is_commit_hash plugin).
    + apply runs_bind, runs_call.
      * intros [|sha shas]; unfold index0; wp.
        -- split; [counts|]. right; split; [right; reflexivity|counts].
        -- split; [counts|]. right; split; [left; eauto|counts].
      * intros e; wp. split; [counts|]. left; split; [reflexivity|counts].
    + apply runs_try, runs_bind, runs_call.
      * intros tag; wp. split; [counts|]. right; split; [left; eauto|counts].
      * intros e; destruct (status e =? 404)%Z.
        -- apply runs_bind, runs_call.
           ++ intros [|t ts]; wp.
              ** split; [counts|]. left; split; [reflexivity|counts].
              ** split; [counts|]. right; split; [left; eauto|counts].
           ++ intros e2; wp. split; [counts|]. left; split; [reflexivity|counts].
        -- wp. split; [counts|]. left; split; [reflexivity|counts].
  - intros e; wp. split; [counts|]. left; split; [reflexivity|counts].
Qed.

(** The search ends with an answer, whatever the service does. *)
Lemma check_for_existing_issue_runs (repo_name plugin_name v : string) :
  runs (check_for_existing_issue repo_name plugin_name v)
       (fun o tail =>
          (exists b, o = Return b)
          /\ count is_create tail = 0%nat
          /\ count is_fetch_error tail = 0%nat).
Proof.
  unfold check_for_existing_issue, print_err.
  apply runs_try, runs_bind, runs_call.
  - intros r; apply runs_bind, runs_call.
    + intros issues; wp. split; [eauto|]. split; counts.
    + intros e; wp. split; [eauto|]. split; counts.
  - intros e; wp. split; [eauto|]. split; counts.
Qed.

(** The creation step ends normally; on a dry run it makes no request. *)
Lemma create_issue_runs (repo_name : string) (plugin : Plugin)
      (v : string) (dry : bool) :
  runs (create_issue set_iter repo_name plugin v dry)
       (fun o tail =>
          o = Return tt
          /\ count is_fetch_error tail = 0%nat
          /\ (dry = true -> count is_create tail = 0%nat)).
Proof.
  unfold create_issue, print, print_err; destruct dry.
  - wp. split; [reflexivity|]. split; [counts | intros _; counts].
  - apply runs_try, runs_bind, runs_call.
    + intros r; apply runs_bind, runs_call.
      * intros n; wp. split; [reflexivity|]. split; [counts | discriminate].
      * intros e; wp. split; [reflexivity|]. split; [counts | discriminate].
    + intros e; wp. split; [reflexivity|]. split; [counts | discriminate].
Qed.

(** What follows a resolved version: the verdict line comes first, no
    resolution failure is logged, and the step ends normally. *)
Lemma reconcile_runs (args : Args) (plugin : Plugin) (latest : string)
      (updates_found : Z) :
  runs (reconcile set_iter args plugin latest updates_found)
       (fun o tail =>
          (exists u', o = Return u')
          /\ count is_fetch_error tail = 0%nat
          /\ (dry_run args = true -> count is_create tail = 0%nat)
          /\ (if any_outdated plugin latest
              then exists t,
                  tail = Stdout (("UPDATE AVAILABLE: " ++ latest) ++ nl) :: t
              else o = Return updates_found
                   /\ tail = [Stdout ("OK" ++ nl)])).
Proof.
  unfold reconcile, print.
  destruct (any_outdated plugin latest).
  - apply runs_bind, runs_emit; cbv beta iota.
    apply runs_bind.
    apply (runs_weaken _ _ _
             (check_for_existing_issue_runs
                (target_repo args) (name plugin) latest)).
    intros o t ((b & ->) & Hc & Hf).
    destruct b.
    + wp. split; [eauto|]. split; [counts|]. split; [intros _; counts|].
      simpl; eauto.
    + apply runs_bind.
      apply (runs_weaken _ _ _
               (create_issue_runs
                  (target_repo args) plugin latest (dry_run args))).
      intros o2 t2 (-> & Hf2 & Hc2).
      wp. split; [eauto|]. split; [counts|].
      split; [intros D; specialize (Hc2 D); counts|].
      simpl; eauto.
  - wp. split; [eauto|]. split; [counts|]. split; [intros _; counts|].
    split; reflexivity.
Qed.

(** One turn of the loop: the error counter grows by the number of
    resolution failures logged in the turn (none or one); only the uncaught
    [IndexError] ends it abnormally. *)
Lemma check_plugin_runs (args : Args) (plugin : Plugin)
      (updates_found errors : Z) :
  runs (check_plugin set_iter args plugin (updates_found, errors))
       (fun o tail =>
          (dry_run args = true -> count is_create tail = 0%nat)
          /\ ((exists u',
                  o = Return
                        (u', (errors
                              + Z.of_nat (count is_fetch_error tail))%Z))
              \/ o = Raise EIndexError)).
Proof.
  unfold check_plugin, print_end_space, print.
  apply runs_bind, runs_emit; cbv beta iota.
  apply runs_bind.
  apply (runs_weaken _ _ _ (get_latest_version_runs plugin)).
  intros o t (Hc & [(-> & Hf)|([(v & ->)| ->] & Hf)]).
  - wp. split; [intros _; counts|].
    left; exists updates_found; do 2 f_equal.
    rewrite !count_app, !count_cons, !count_nil, Hf; simpl; lia.
  - apply runs_bind.
    apply (runs_weaken _ _ _ (reconcile_runs args plugin v updates_found)).
    intros o2 t2 ((u' & ->) & Hf2 & Hc2 & _).
    wp. split; [intros D; specialize (Hc2 D); counts|].
    left; exists u'; do 2 f_equal.
    rewrite !count_app, !count_cons, !count_nil, Hf, Hf2; simpl; lia.
  - split; [intros _; counts | now right].
Qed.

Lemma check_plugins_runs (args : Args) (plugins : list Plugin)
      (updates_found errors : Z) :
  runs (check_plugins set_iter args plugins (updates_found, errors))
       (fun o tail =>
          (dry_run args = true -> count is_create tail = 0%nat)
          /\ ((exists u',
                  o = Return
                        (u', (errors
                              + Z.of_nat (count is_fetch_error tail))%Z))
              \/ o = Raise EIndexError)).
Proof.
  revert updates_found errors.
  induction plugins as [|plugin rest IH]; intros updates_found errors; simpl.
  - wp. split; [reflexivity|].
    left; exists updates_found; do 2 f_equal; simpl; lia.
  - apply runs_bind.
    apply (runs_weaken _ _ _
             (check_plugin_runs args plugin updates_found errors)).
    intros o t (Hc & [(u1 & ->)| ->]).
    + apply (runs_weaken _ _ _ (IH u1 _)).
      intros o2 t2 (Hc2 & Ho2); split.
      * intros D; specialize (Hc D); specialize (Hc2 D); counts.
      * destruct Ho2 as [(u2 & ->)| ->]; [left | now right].
        exists u2; do 2 f_equal; rewrite count_app; lia.
    + split; [assumption | now right].
Qed.

(** The loop and the summary: status 0 without a logged resolution
    failure, [sys.exit(1)] with one or more, unless the uncaught
    [IndexError] cut the loop short. *)
Lemma check_and_summarise_runs (args : Args) (plugins : list Plugin) :
  runs (check_and_summarise set_iter args plugins)
       (fun o tail =>
          (dry_run args = true -> count is_create tail = 0%nat)
          /\ (o = Raise EIndexError
              \/ (o = Return tt /\ count is_fetch_error tail = 0%nat)
              \/ (o = Raise (ESystemExit 1)
                  /\ (0 < count is_fetch_error tail)%nat))).
Proof.
  unfold check_and_summarise, print, sys_exit.
  apply runs_bind, runs_emit; cbv beta iota.
  apply runs_bind.
  apply (runs_weaken _ _ _ (check_plugins_runs args plugins 0%Z 0%Z)).
  intros o t (Hc & [(u' & ->)| ->]).
  - cbv beta iota.
    do 5 (apply runs_bind, runs_emit; cbv beta iota).
    destruct (_ >? 0)%Z eqn:E; wp.
    + split; [intros D; specialize (Hc D); counts|].
      right; right; split; [reflexivity|].
      apply Z.gtb_lt in E; counts.
    + split; [intros D; specialize (Hc D); counts|].
      right; left; split; [reflexivity|].
      rewrite Z.gtb_ltb in E; apply Z.ltb_ge in E; counts.
  - split; [intros D; specialize (Hc D); counts | now left].
Qed.

(** The run past validation, when the text of the file is read. *)
Lemma run_checks_text (args : Args) (content : string) (s : state W) :
  file_system (versions_file args) = Text content ->
  run_checks file_system set_iter args s
  = check_and_summarise set_iter args (parse_readme content)
      (mkState (world s)
         (log s ++ [Stdout (("Parsing " ++ versions_file args ++ "...")
                            ++ nl)])%list).
Proof.
  intros Hf.
  unfold run_checks, parse_readme_at, read_text, bind, print, emit, ret.
  now rewrite Hf.
Qed.

(** The run past validation, whatever the file system holds. *)
Lemma run_checks_runs (args : Args) :
  runs (run_checks file_system set_iter args)
       (fun o tail =>
          (dry_run args = true -> count is_create tail = 0%nat)
          /\ ((o = Raise EReadError /\ count is_fetch_error tail = 0%nat)
              \/ o = Raise EIndexError
              \/ (o = Return tt /\ count is_fetch_error tail = 0%nat)
              \/ (o = Raise (ESystemExit 1)
                  /\ (0 < count is_fetch_error tail)%nat))).
Proof.
  unfold run_checks, print, parse_readme_at, read_text.
  apply runs_bind, runs_emit; cbv beta iota.
  destruct (file_system (versions_file args)) as [| |content].
  - apply runs_bind, runs_bind, runs_raise; cbv beta iota.
    split; [intros _; counts | left; split; [reflexivity | counts]].
  - apply runs_bind, runs_bind, runs_raise; cbv beta iota.
    split; [intros _; counts | left; split; [reflexivity | counts]].
  - apply runs_bind, runs_bind, runs_ret; cbv beta iota.
    apply runs_ret; cbv beta iota.
    apply (runs_weaken _ _ _
             (check_and_summarise_runs args (parse_readme content))).
    intros o t (Hc & Ho); split.
    + intros D; specialize (Hc D); counts.
    + right; destruct Ho as [->|[(-> & Hf)|(-> & Hf)]];
        [now left | right; left | right; right];
        (split; [reflexivity | counts]).
Qed.

End ProgramFacts.

(** ** Claims about the orchestrator *)

Section Orchestrator.
Context {pk : Packaging} {W Repo : Type} {gh : Github W Repo}.
Variable file_system : string -> file.
Variable set_iter : list string -> list string.


(** C5: once the latest version is resolved, the plugin is found outdated
    exactly when some non-empty recorded version is outdated against it; the
    scan ends on the first such entry and looks at nothing after it; and the
    verdict line of the run follows that answer. *)
Theorem plugin_outdated_iff_some_entry (plugin : Plugin) (latest : string) :
  (any_outdated plugin latest = true
   <-> exists current,
       In current (versions plugin) /\ current <> ""
       /\ is_version_outdated current latest (is_commit_hash plugin) = true)
  /\ (forall before current after,
         versions plugin = (before ++ current :: after)%list ->
         (forall c, In c before ->
                    c = ""
                    \/ is_version_outdated c latest (is_commit_hash plugin)
                       = false) ->
         current <> "" ->
         is_version_outdated current latest (is_commit_hash plugin) = true ->
         scan_versions (versions plugin) latest (is_commit_hash plugin)
         = (true, (before ++ [current])%list))
  /\ (forall (args : Args) (updates_found : Z) (s : state W),
         exists o tail w',
           reconcile set_iter args plugin latest updates_found s
           = (o, mkState w' (log s ++ tail)%list)
           /\ (any_outdated plugin latest = true ->
               exists t,
                 tail = Stdout (("UPDATE AVAILABLE: " ++ latest) ++ nl) :: t)
           /\ (any_outdated plugin latest = false ->
               o = Return updates_found /\ tail = [Stdout ("OK" ++ nl)])).
Proof.
  split; [|split].
  - apply scan_versions_true.
  - intros before current after Ev Hb Hne Ho.
    rewrite Ev; now apply scan_versions_stops.
  - intros args updates_found s.
    destruct (reconcile_runs set_iter args plugin latest updates_found s)
      as (o & tail & w' & E & _ & _ & _ & Hv).
    exists o, tail, w'; split; [exact E|].
    destruct (any_outdated plugin latest); split; intros; congruence || auto.
Qed.

(** C6, as the code has it.  With a non-empty token and a versions file
    whose text is read, a run that the uncaught [IndexError] does not cut
    short exits with status 1 when a resolution failure was logged and with
    status 0 otherwise.  The error counter grows exactly by the logged
    resolution failures, so a turn whose version was resolved leaves it as
    it was, however the search and the creation go; the resolver logs such a
    failure exactly when it answers [None].  Without a token, or with a
    token and no file at the path, the run stops on [sys.exit(1)] after one
    line on the error stream; with a file that exists and cannot be read it
    ends on the uncaught exception of the read, status 1.  None of these
    three runs makes a request or attempts a resolution. *)
Theorem exit_status_reports_resolution_failures :
  (forall (args : Args) (token content : string) (s : state W),
      github_token args = Some token -> token <> "" ->
      file_system (versions_file args) = Text content ->
      exists o tail w',
        main file_system set_iter args s = (o, mkState w' (log s ++ tail)%list)
        /\ (o = Raise EIndexError
            \/ ((exit_status o = 0%Z \/ exit_status o = 1%Z)
                /\ (exit_status o <> 0%Z
                    <-> (0 < count is_fetch_error tail)%nat))))
  /\ (forall (args : Args) (plugins : list Plugin) (updates_found errors : Z)
             (s : state W),
         exists o tail w',
           check_plugins set_iter args plugins (updates_found, errors) s
           = (o, mkState w' (log s ++ tail)%list)
           /\ (o = Raise EIndexError
               \/ exists u',
                   o = Return
                         (u', (errors
                               + Z.of_nat (count is_fetch_error tail))%Z)))
  /\ (forall (args : Args) (plugin : Plugin) (updates_found errors : Z)
             (s s1 : state W) (latest : string),
         get_latest_version plugin
           (mkState (world s)
              (log s ++ [Stdout (("Checking " ++ name plugin ++ "...")
                                 ++ " ")])%list)
         = (Return (Some latest), s1) ->
         exists u' s',
           check_plugin set_iter args plugin (updates_found, errors) s
           = (Return (u', errors), s'))
  /\ (forall (plugin : Plugin) (s : state W),
         exists o tail w',
           get_latest_version plugin s
           = (o, mkState w' (log s ++ tail)%list)
           /\ ((o = Return None /\ count is_fetch_error tail = 1%nat)
               \/ (o <> Return None /\ count is_fetch_error tail = 0%nat)))
  /\ (forall (args : Args) (s : state W),
         github_token args = None \/ github_token args = Some "" ->
         main file_system set_iter args s
         = (Raise (ESystemExit 1),
            mkState (world s)
              (log s
               ++ [Stderr (("Error: GitHub token is required. "
                            ++ "Set GITHUB_TOKEN env var or use "
                            ++ "--github-token") ++ nl)])%list)
         /\ exit_status (fst (main file_system set_iter args s)) = 1%Z)
  /\ (forall (args : Args) (token : string) (s : state W),
         github_token args = Some token -> token <> "" ->
         file_system (versions_file args) = Missing ->
         main file_system set_iter args s
         = (Raise (ESystemExit 1),
            mkState (world s)
              (log s
               ++ [Stderr (("Error: Versions file not found: "
                            ++ versions_file args) ++ nl)])%list)
         /\ exit_status (fst (main file_system set_iter args s)) = 1%Z)
  /\ (forall (args : Args) (token : string) (s : state W),
         github_token args = Some token -> token <> "" ->
         file_system (versions_file args) = Unreadable ->
         main file_system set_iter args s
         = (Raise EReadError,
            mkState (world s)
              (log s
               ++ [Stdout (("Parsing " ++ versions_file args ++ "...")
                           ++ nl)])%list)
         /\ exit_status (fst (main file_system set_iter args s)) = 1%Z).
Proof.
  assert (Htoken : forall (args : Args) (token : string),
             github_token args = Some token -> token <> "" ->
             token_missing args = false).
  { intros args token Ht Hn; unfold token_missing; rewrite Ht.
    destruct token; [congruence | reflexivity]. }
  split; [|split; [|split; [|split; [|split; [|split]]]]].
  - intros args token content s Ht Hn Hf; unfold main, path_exists.
    rewrite (Htoken args token Ht Hn), Hf; cbv beta iota delta [negb].
    rewrite (run_checks_text file_system set_iter args content s Hf).
    destruct (check_and_summarise_runs set_iter args (parse_readme content)
                (mkState (world s)
                   (log s ++ [Stdout (("Parsing " ++ versions_file args
                                       ++ "...") ++ nl)])%list))
      as (o & tail & w' & E & _ & Ho).
    exists o, (Stdout (("Parsing " ++ versions_file args ++ "...") ++ nl)
               :: tail), w'.
    split; [rewrite E; cbn [log]; now rewrite <- app_assoc|].
    rewrite count_cons; cbn [is_fetch_error].
    destruct Ho as [->|[(-> & Hc)|(-> & Hc)]]; [now left | right | right];
      simpl; (split; [auto|]); split; intros; lia || congruence.
  - intros args plugins updates_found errors s.
    destruct (check_plugins_runs set_iter args plugins updates_found errors s)
      as (o & tail & w' & E & _ & Ho).
    exists o, tail, w'; split; [exact E|].
    destruct Ho as [Ho|Ho]; auto.
  - intros args plugin updates_found errors s s1 latest Hl.
    unfold check_plugin, bind, print_end_space, emit; simpl.
    simpl in Hl; rewrite Hl.
    destruct (reconcile_runs set_iter args plugin latest updates_found s1)
      as (o & tail & w' & E & (u' & ->) & _).
    rewrite E; unfold ret; eauto.
  - intros plugin s.
    destruct (get_latest_version_runs plugin s)
      as (o & tail & w' & E & _ & Ho).
    exists o, tail, w'; split; [exact E|].
    destruct Ho as [Ho|([(v & ->)| ->] & Hc)];
      [now left | right | right]; (split; [discriminate | exact Hc]).
  - intros args s Ht.
    assert (Hm : token_missing args = true)
      by (unfold token_missing; destruct Ht as [-> | ->]; reflexivity).
    unfold main; rewrite Hm; split; reflexivity.
  - intros args token s Ht Hn Hf; unfold main, path_exists.
    rewrite (Htoken args token Ht Hn), Hf; split; reflexivity.
  - intros args token s Ht Hn Hf; unfold main, path_exists.
    rewrite (Htoken args token Ht Hn), Hf; cbv beta iota delta [negb].
    unfold run_checks, parse_readme_at, read_text; rewrite Hf.
    split; reflexivity.
Qed.

Lemma bind_ext {A B : Type} (m m' : M W A) (k k' : A -> M W B)
      (s : state W) :
  m s = m' s -> (forall a s1, k a s1 = k' a s1) -> bind m k s = bind m' k' s.
Proof.
  unfold bind; intros -> Hk; destruct (m' s) as [[a|e] s1]; auto.
Qed.

(** On a dry run the program behaves the same whatever the write operation
    of the service is. *)
Lemma reconcile_dry_independent
      (create : Repo -> string -> string -> list string -> W -> reply Z * W)
      (args : Args) (plugin : Plugin) (latest : string) (updates_found : Z)
      (s : state W) :
  dry_run args = true ->
  reconcile (gh := replace_create gh create) set_iter args plugin latest
            updates_found s
  = reconcile (gh := gh) set_iter args plugin latest updates_found s.
Proof.
  intros D; unfold reconcile.
  destruct (any_outdated plugin latest); [|reflexivity].
  apply bind_ext; [reflexivity|]; intros _ s0.
  apply bind_ext; [reflexivity|]; intros exists_already s1.
  destruct exists_already; [reflexivity|].
  rewrite D; reflexivity.
Qed.

Lemma check_plugins_dry_independent
      (create : Repo -> string -> string -> list string -> W -> reply Z * W)
      (args : Args) (plugins : list Plugin) (counters : Z * Z)
      (s : state W) :
  dry_run args = true ->
  check_plugins (gh := replace_create gh create) set_iter args plugins
                counters s
  = check_plugins (gh := gh) set_iter args plugins counters s.
Proof.
  intros D; revert counters s.
  induction plugins as [|plugin rest IH]; intros [u e] s; [reflexivity|].
  simpl; apply bind_ext; [|intros c s1; apply IH].
  unfold check_plugin.
  apply bind_ext; [reflexivity|]; intros _ s0.
  apply bind_ext; [reflexivity|]; intros [latest|] s1; [|reflexivity].
  apply bind_ext; [|reflexivity].
  now apply reconcile_dry_independent.
Qed.

Lemma run_checks_dry_independent
      (create : Repo -> string -> string -> list string -> W -> reply Z * W)
      (args : Args) (s : state W) :
  dry_run args = true ->
  run_checks (gh := replace_create gh create) file_system set_iter args s
  = run_checks (gh := gh) file_system set_iter args s.
Proof.
  intros D; unfold run_checks.
  apply bind_ext; [reflexivity|]; intros _ s0.
  apply bind_ext; [reflexivity|]; intros plugins s1.
  unfold check_and_summarise.
  apply bind_ext; [reflexivity|]; intros _ s2.
  apply bind_ext; [|reflexivity].
  now apply check_plugins_dry_independent.
Qed.

(** C7: on a dry run [create_issue] writes the four lines of the preview to
    standard output and does nothing else; no run of [main] with the dry-run
    flag set asks the service to create an issue; and such a run is the same
    whatever the write operation of the service would do. *)
Theorem dry_run_never_creates_issue :
  (forall (repo_name : string) (plugin : Plugin) (new_version : string)
          (s : state W),
      create_issue set_iter repo_name plugin new_version true s
      = (Return tt,
         mkState (world s)
           (log s
            ++ [Stdout ((nl ++ "[DRY RUN] Would create issue:") ++ nl);
                Stdout (("  Title: "
                         ++ issue_title (name plugin) new_version) ++ nl);
                Stdout ("  Labels: version-update, automated" ++ nl);
                Stdout (("  Body:" ++ nl
                         ++ issue_body set_iter plugin new_version)
                        ++ nl)])%list))
  /\ (forall (args : Args) (s : state W),
         dry_run args = true ->
         exists o tail w',
           main file_system set_iter args s
           = (o, mkState w' (log s ++ tail)%list)
           /\ forall title body labels,
               ~ In (Request (CreateIssue title body labels)) tail)
  /\ (forall (create : Repo -> string -> string -> list string -> W
                       -> reply Z * W)
             (args : Args) (s : state W),
         dry_run args = true ->
         main (gh := replace_create gh create) file_system set_iter args s
         = main (gh := gh) file_system set_iter args s).
Proof.
  split; [|split].
  - intros repo_name plugin new_version s.
    unfold create_issue, bind, print, emit; simpl.
    now rewrite <- !app_assoc.
  - intros args s D; unfold main.
    assert (Hstop : forall text,
               exists o tail w',
                 (print_err text ;;; sys_exit (A := unit) 1) s
                 = (o, mkState w' (log s ++ tail)%list)
                 /\ forall title body labels,
                     ~ In (Request (CreateIssue title body labels)) tail).
    { intros text; exists (Raise (ESystemExit 1)), [Stderr (text ++ nl)],
        (world s); split; [reflexivity|].
      intros title body labels [H|[]]; discriminate. }
    destruct (token_missing args); [apply Hstop|].
    destruct (negb (path_exists file_system (versions_file args)));
      [apply Hstop|].
    destruct (run_checks_runs file_system set_iter args s)
      as (o & tail & w' & E & Hc & _).
    exists o, tail, w'; split; [exact E|].
    intros title body labels.
    apply (count_zero_not_in is_create); [auto | reflexivity].
  - intros create args s D; unfold main.
    destruct (token_missing args); [reflexivity|].
    destruct (negb (path_exists file_system (versions_file args)));
      [reflexivity|].
    now apply run_checks_dry_independent.
Qed.


End Orchestrator.

(** ** The claims on the sample inputs *)

Lemma plugin_outdated_iff_some_entry_witness :
  @any_outdated Mock.dotted Examples.plugin_x "1.1.0" = true
  /\ @scan_versions Mock.dotted (versions Examples.plugin_x) "1.1.0"
       (is_commit_hash Examples.plugin_x)
     = (true, ([] ++ ["1.0.0"])%list).
Proof.
  pose proof (@plugin_outdated_iff_some_entry
                Mock.dotted Mock.world Mock.repo_data
                (Mock.github Examples.double_v_service)
                Examples.insertion_order Examples.plugin_x "1.1.0")
    as (Hiff & Hstop & _).
  split.
  - apply Hiff; exists "1.0.0".
    split; [now left | split; [discriminate | vm_compute; reflexivity]].
  - apply (Hstop [] "1.0.0" ["1.0.0"]);
      [reflexivity | intros c [] | discriminate | vm_compute; reflexivity].
Defined.

Lemma exit_status_reports_resolution_failures_witness :
  (exists o tail w',
      main (gh := Mock.github Examples.failing_search_service)
           (pk := Mock.dotted)
           Examples.versions_md Examples.insertion_order
           (Examples.args_for (Some "token") false) (Mock.start [])
      = (o, mkState w' (log (Mock.start []) ++ tail)%list)
      /\ (o = Raise EIndexError
          \/ ((exit_status o = 0%Z \/ exit_status o = 1%Z)
              /\ (exit_status o <> 0%Z
                  <-> (0 < count is_fetch_error tail)%nat))))
  /\ exit_status
       (fst (main (gh := Mock.github Examples.failing_search_service)
                  (pk := Mock.dotted)
                  Examples.versions_md Examples.insertion_order
                  (Examples.args_for (Some "") false) (Mock.start [])))
     = 1%Z
  /\ exit_status
       (fst (main (gh := Mock.github Examples.failing_search_service)
                  (pk := Mock.dotted)
                  Mock.no_file Examples.insertion_order
                  (Examples.args_for (Some "token") false) (Mock.start [])))
     = 1%Z
  /\ exit_status
       (fst (main (gh := Mock.github Examples.failing_search_service)
                  (pk := Mock.dotted)
                  (fun _ => Unreadable) Examples.insertion_order
                  (Examples.args_for (Some "token") false) (Mock.start [])))
     = 1%Z.
Proof.
  split; [|split; [|split]].
  - apply (proj1 (@exit_status_reports_resolution_failures
                    Mock.dotted Mock.world Mock.repo_data
                    (Mock.github Examples.failing_search_service)
                    Examples.versions_md Examples.insertion_order)
                 (Examples.args_for (Some "token") false) "token"
                 (Examples.header ++ Examples.release_row) (Mock.start []));
      [reflexivity | discriminate | reflexivity].
  - apply (proj1 (proj2 (proj2 (proj2 (proj2
             (@exit_status_reports_resolution_failures
                Mock.dotted Mock.world Mock.repo_data
                (Mock.github Examples.failing_search_service)
                Examples.versions_md Examples.insertion_order)))))
                 (Examples.args_for (Some "") false) (Mock.start [])).
    now right.
  - apply (proj1 (proj2 (proj2 (proj2 (proj2 (proj2
             (@exit_status_reports_resolution_failures
                Mock.dotted Mock.world Mock.repo_data
                (Mock.github Examples.failing_search_service)
                Mock.no_file Examples.insertion_order))))))
                 (Examples.args_for (Some "token") false) "token"
                 (Mock.start []));
      [reflexivity | discriminate | reflexivity].
  - apply (proj2 (proj2 (proj2 (proj2 (proj2 (proj2
             (@exit_status_reports_resolution_failures
                Mock.dotted Mock.world Mock.repo_data
                (Mock.github Examples.failing_search_service)
                (fun _ => Unreadable) Examples.insertion_order))))))
                 (Examples.args_for (Some "token") false) "token"
                 (Mock.start []));
      [reflexivity | discriminate | reflexivity].
Defined.

(** C6 as stated fails: a run without a token attempts no resolution, logs
    no resolution failure and makes no request, and yet exits with
    status 1. *)
Lemma missing_token_exits_nonzero :
  let run :=
    main (gh := Mock.github Examples.failing_search_service)
         (pk := Mock.dotted)
         Examples.versions_md Examples.insertion_order
         (Examples.args_for None false) (Mock.start []) in
  exit_status (fst run) = 1%Z
  /\ count is_fetch_error (log (snd run)) = 0%nat
  /\ log (snd run)
     = [Stderr (("Error: GitHub token is required. Set GITHUB_TOKEN env var "
                 ++ "or use --github-token") ++ nl)].
Proof. vm_compute; auto. Qed.

(** A run whose only failures are those of the reconciler (the search and
    the creation both fail) ends with status 0. *)
Example reconciliation_failures_exit_zero :
  let sv :=
    Mock.mkService (Mock.repos Examples.failing_search_service)
                   (Some Examples.broken_search)
                   (Some Examples.broken_search) in
  let run :=
    main (gh := Mock.github sv) (pk := Mock.dotted)
         Examples.versions_md Examples.insertion_order
         (Examples.args_for (Some "token") false) (Mock.start []) in
  fst run = Return tt
  /\ exit_status (fst run) = 0%Z
  /\ In (Stderr ("Error checking for existing issues: 502 Bad Gateway" ++ nl))
        (log (snd run))
  /\ In (Stderr ("Error creating issue for PluginX: 502 Bad Gateway" ++ nl))
        (log (snd run)).
Proof. vm_compute; intuition. Qed.

(** A service that lists no commit at all for a commit-tracked plugin:
    [commits[0]] raises [IndexError], which nobody catches; the run ends
    there, with no resolution failure logged or counted. *)
Example empty_commit_listing_is_uncaught :
  let run :=
    main (gh := Mock.github Examples.empty_listing_service)
         (pk := Mock.dotted)
         (fun _ => Text (Examples.header ++ Examples.commit_row))
         Examples.insertion_order
         (Examples.args_for (Some "token") false) (Mock.start []) in
  fst run = Raise EIndexError
  /\ exit_status (fst run) = 1%Z
  /\ count is_fetch_error (log (snd run)) = 0%nat.
Proof. vm_compute; auto. Qed.

Lemma dry_run_never_creates_issue_witness :
  exists o tail w',
    main (gh := Mock.github Examples.failing_search_service)
         (pk := Mock.dotted)
         Examples.versions_md Examples.insertion_order
         (Examples.args_for (Some "token") true) (Mock.start [])
    = (o, mkState w' (log (Mock.start []) ++ tail)%list)
    /\ forall title body labels,
        ~ In (Request (CreateIssue title body labels)) tail.
Proof.
  apply (proj1 (proj2 (@dry_run_never_creates_issue
                         Mock.dotted Mock.world Mock.repo_data
                         (Mock.github Examples.failing_search_service)
                         Examples.versions_md Examples.insertion_order))
               (Examples.args_for (Some "token") true) (Mock.start [])).
  reflexivity.
Defined.


(** After the failed search of the sample run the service is asked to
    create the issue, and does. *)
Example failed_search_then_issue_created :
  let run :=
    reconcile (gh := Mock.github Examples.failing_search_service)
              (pk := Mock.dotted) Examples.insertion_order
              (Examples.args_for (Some "token") false)
              Examples.plugin_x "1.1.0" 0%Z (Mock.start []) in
  count is_create (log (snd run)) = 1%nat
  /\ world (snd run) = ["Update PluginX to 1.1.0"].
Proof. vm_compute; auto. Qed.

Lemma lstrip_by_head (p : ascii -> bool) (s rest : string) (c : ascii) :
  PyStr.lstrip_by p s = String c rest -> p c = false.
Proof.
  induction s as [|a s IH]; simpl; [discriminate|].
  destruct (p a) eqn:Pa; [exact IH|].
  intros H; injection H as <- _; exact Pa.
Qed.

(** C4: release mode strips every leading v, not one.  The latest release of
    the first sample service is tagged vv1.1.0, the first tag of the second
    one vv2.0; the resolver answers 1.1.0 and 2.0, where the removal of one
    leading v would leave v1.1.0 and v2.0.  The two ways of stripping differ
    on every name with two or more leading v. *)
Theorem resolver_strips_every_leading_v :
  fst (get_latest_version (gh := Mock.github Examples.double_v_service)
                          Examples.plugin_x (Mock.start []))
  = Return (Some "1.1.0")
  /\ fst (get_latest_version (gh := Mock.github Examples.double_v_tag_service)
                             Examples.plugin_x (Mock.start []))
     = Return (Some "2.0")
  /\ Spec.strip_one_v "vv1.1.0" = "v1.1.0"
  /\ Spec.strip_one_v "vv2.0" = "v2.0"
  /\ forall rest,
      PyStr.lstrip_char "v" ("vv" ++ rest) <> Spec.strip_one_v ("vv" ++ rest).
Proof.
  repeat (split; [vm_compute; reflexivity|]).
  intros rest H.
  change (Spec.strip_one_v ("vv" ++ rest)) with (String "v" rest) in H.
  apply lstrip_by_head in H; discriminate.
Qed.

(** * Further properties of the code *)

(** ** Stripping *)

Lemma lstrip_by_idem (p : ascii -> bool) (s : string) :
  PyStr.lstrip_by p (PyStr.lstrip_by p s) = PyStr.lstrip_by p s.
Proof.
  induction s as [|a s IH]; simpl; [reflexivity|].
  destruct (p a) eqn:Pa; [exact IH | simpl; now rewrite Pa].
Qed.

Lemma rstrip_by_cons (p : ascii -> bool) (a : ascii) (s : string) :
  p a = false ->
  PyStr.rstrip_by p (String a s) = String a (PyStr.rstrip_by p s).
Proof.
  intros Pa; simpl; destruct (PyStr.rstrip_by p s); [now rewrite Pa|].
  reflexivity.
Qed.

Lemma rstrip_by_step (p : ascii -> bool) (a : ascii) (s : string) :
  PyStr.rstrip_by p (String a s)
  = match PyStr.rstrip_by p s with
    | EmptyString => if p a then EmptyString else String a EmptyString
    | r => String a r
    end.
Proof. reflexivity. Qed.

Lemma rstrip_by_idem (p : ascii -> bool) (s : string) :
  PyStr.rstrip_by p (PyStr.rstrip_by p s) = PyStr.rstrip_by p s.
Proof.
  induction s as [|a s IH]; [reflexivity|].
  rewrite rstrip_by_step.
  destruct (PyStr.rstrip_by p s) as [|b r] eqn:R.
  - destruct (p a) eqn:Pa; [reflexivity|].
    now rewrite rstrip_by_step, Pa.
  - now rewrite rstrip_by_step, IH.
Qed.

Lemma rstrip_by_snoc (p : ascii -> bool) (s : string) (c : ascii) :
  p c = true ->
  PyStr.rstrip_by p (s ++ String c "") = PyStr.rstrip_by p s.
Proof.
  intros Pc; induction s as [|a s IH]; simpl; [now rewrite Pc|].
  now rewrite IH.
Qed.

Lemma strip_idem (s : string) : PyStr.strip (PyStr.strip s) = PyStr.strip s.
Proof.
  unfold PyStr.strip.
  destruct (PyStr.lstrip_by PyStr.isspace s) as [|a r] eqn:L;
    [reflexivity|].
  pose proof (lstrip_by_head _ _ _ _ L) as Pa.
  rewrite (rstrip_by_cons _ _ _ Pa); simpl PyStr.lstrip_by; rewrite Pa.
  rewrite (rstrip_by_cons _ _ _ Pa); now rewrite rstrip_by_idem.
Qed.

Lemma rstrip_by_keep (p : ascii -> bool) (s : string) :
  PyStr.all_chars (fun c => negb (p c)) s = true -> PyStr.rstrip_by p s = s.
Proof.
  induction s as [|a s IH]; simpl; [reflexivity|].
  intros H; apply andb_true_iff in H as [Pa H].
  apply negb_true_iff in Pa.
  rewrite (IH H); destruct s; [now rewrite Pa | reflexivity].
Qed.

Lemma rstrip_by_app_keep (p : ascii -> bool) (x r : string) :
  r <> "" -> PyStr.rstrip_by p r = r ->
  PyStr.rstrip_by p (x ++ r) = x ++ r.
Proof.
  intros Nr Hr; induction x as [|a x IH]; [exact Hr|].
  change (PyStr.rstrip_by p (String a (x ++ r)) = String a (x ++ r)).
  rewrite rstrip_by_step, IH.
  destruct (x ++ r) eqn:E; [|reflexivity].
  destruct x; simpl in E; [congruence | discriminate].
Qed.

Lemma strip_keep (a : ascii) (x : string) (c : ascii) :
  PyStr.isspace a = false -> PyStr.isspace c = false ->
  PyStr.strip (String a (x ++ String c "")) = String a (x ++ String c "").
Proof.
  intros Pa Pc; unfold PyStr.strip; simpl PyStr.lstrip_by; rewrite Pa.
  apply (rstrip_by_app_keep _ (String a x) (String c ""));
    [discriminate | simpl; now rewrite Pc].
Qed.

(** One space of padding on either side of a cell is stripped with the rest
    of its white space. *)
Lemma strip_padded (cell : string) :
  PyStr.strip (" " ++ cell ++ " ") = PyStr.strip cell.
Proof.
  unfold PyStr.strip.
  change (PyStr.lstrip_by PyStr.isspace (" " ++ cell ++ " "))
    with (PyStr.lstrip_by PyStr.isspace (cell ++ " ")).
  induction cell as [|a cell IH]; [reflexivity|].
  simpl PyStr.lstrip_by; destruct (PyStr.isspace a) eqn:Pa; [exact IH|].
  change (String a (cell ++ " ")) with (String a cell ++ " ").
  now apply rstrip_by_snoc.
Qed.

Lemma all_chars_impl (p q : ascii -> bool) (s : string) :
  (forall c, p c = true -> q c = true) ->
  PyStr.all_chars p s = true -> PyStr.all_chars q s = true.
Proof.
  intros Hpq; induction s as [|a s IH]; simpl; [reflexivity|].
  intros H; apply andb_true_iff in H as [Pa H].
  now rewrite (Hpq a Pa), (IH H).
Qed.

(** ** Rows of the documented layout *)

Lemma split_cells_text (cells : list string) :
  Forall (fun cell => PyStr.all_chars Table.cell_char cell = true) cells ->
  PyStr.split "|" (Table.cells_text cells)
  = (map (fun cell => (" " ++ cell ++ " ")%string) cells ++ [""])%list.
Proof.
  induction 1 as [|cell rest Hc _ IH]; [reflexivity|].
  change (Table.cells_text (cell :: rest))
    with (" " ++ cell ++ " |" ++ Table.cells_text rest).
  replace (" " ++ cell ++ " |" ++ Table.cells_text rest)
    with ((" " ++ cell ++ " ") ++ String "|" (Table.cells_text rest))
    by (simpl; f_equal; now rewrite str_app_assoc).
  rewrite split_app_sep, IH; [reflexivity|].
  change (Re.not_char "|") with Table.cell_char.
  now rewrite !all_chars_app, Hc.
Qed.

Lemma row_cells_row (cells : list string) :
  Forall (fun cell => PyStr.all_chars Table.cell_char cell = true) cells ->
  row_cells (Table.row cells) = map PyStr.strip cells.
Proof.
  intros H; unfold row_cells, Table.row, PyStr.slice_1_m1.
  change (PyStr.split "|" ("|" ++ Table.cells_text cells))
    with ("" :: PyStr.split "|" (Table.cells_text cells)).
  rewrite (split_cells_text cells H); simpl tl.
  rewrite removelast_last, map_map.
  apply map_ext; intros cell; apply strip_padded.
Qed.

Lemma cells_text_ends (cell : string) (rest : list string) :
  exists pre, Table.cells_text (cell :: rest) = pre ++ "|".
Proof.
  revert cell; induction rest as [|next rest IH]; intros cell.
  - exists (" " ++ cell ++ " "); simpl; f_equal.
    now rewrite str_app_assoc.
  - destruct (IH next) as (pre & E).
    exists (" " ++ cell ++ " |" ++ pre).
    change (Table.cells_text (cell :: next :: rest))
      with (" " ++ cell ++ " |" ++ Table.cells_text (next :: rest)).
    rewrite E; simpl; f_equal.
    now rewrite !str_app_assoc.
Qed.

(** A row of the layout has no white space to strip. *)
Lemma strip_row (cell : string) (rest : list string) :
  PyStr.strip (Table.row (cell :: rest)) = Table.row (cell :: rest).
Proof.
  destruct (cells_text_ends cell rest) as (pre & E).
  unfold Table.row; rewrite E.
  apply (strip_keep "|" pre "|"); reflexivity.
Qed.

Lemma segment_not_slash (c : ascii) :
  Table.segment_char c = true -> Re.not_slash c = true.
Proof.
  unfold Table.segment_char; intros H.
  apply andb_true_iff in H as [H _]; now apply andb_true_iff in H as [H _].
Qed.

Lemma segment_not_paren (c : ascii) :
  Table.segment_char c = true -> Re.not_char ")" c = true.
Proof.
  unfold Table.segment_char; intros H.
  apply andb_true_iff in H as [H _]; now apply andb_true_iff in H as [_ H].
Qed.

Lemma segment_cell_char (c : ascii) :
  Table.segment_char c = true -> Table.cell_char c = true.
Proof.
  unfold Table.segment_char; intros H; now apply andb_true_iff in H as [_ H].
Qed.

Lemma repo_url_chars (p : ascii -> bool) (o r : string) :
  PyStr.all_chars p "https://github.com/" = true ->
  PyStr.all_chars p o = true -> PyStr.all_chars p r = true ->
  PyStr.all_chars p (Table.repo_url o r) = true.
Proof.
  intros Hl Ho Hr; unfold Table.repo_url.
  assert (Hs : p "/"%char = true).
  { simpl in Hl; destruct (p "/"%char); [reflexivity|].
    now rewrite !andb_false_r in Hl. }
  rewrite !all_chars_app, Hl, Ho, Hr; simpl; now rewrite Hs.
Qed.

Lemma map_strip_idem (cells : list string) :
  map PyStr.strip (map PyStr.strip cells) = map PyStr.strip cells.
Proof.
  rewrite map_map; apply map_ext; intros cell; apply strip_idem.
Qed.

Lemma split_closed_cells (cells : list string) :
  Forall (fun cell => PyStr.all_chars Table.cell_char cell = true) cells ->
  PyStr.split "|" (Table.closed_cells cells) = (cells ++ [""])%list.
Proof.
  induction 1 as [|cell rest Hc _ IH]; [reflexivity|].
  change (Table.closed_cells (cell :: rest))
    with (cell ++ String "|" (Table.closed_cells rest)).
  now rewrite split_app_sep, IH.
Qed.

Lemma closed_cells_ends (cell : string) (rest : list string) :
  exists pre, Table.closed_cells (cell :: rest) = pre ++ "|".
Proof.
  revert cell; induction rest as [|next rest IH]; intros cell.
  - exists cell; reflexivity.
  - destruct (IH next) as (pre & E).
    exists (cell ++ "|" ++ pre).
    change (Table.closed_cells (cell :: next :: rest))
      with (cell ++ "|" ++ Table.closed_cells (next :: rest)).
    now rewrite E, !str_app_assoc.
Qed.

Lemma strip_bounded_row (cells : list string) :
  PyStr.strip (Table.bounded_row cells) = Table.bounded_row cells.
Proof.
  destruct cells as [|cell rest]; [reflexivity|].
  destruct (closed_cells_ends cell rest) as (pre & E).
  unfold Table.bounded_row; rewrite E.
  apply (strip_keep "|" pre "|"); reflexivity.
Qed.

(** X1: a row line that opens with the delimiter and closes each of its
    cells with one, where no cell holds a delimiter, is read back as those
    cells, in order, each with its surrounding white space removed; white
    space or its absence around a cell makes no difference. *)
Theorem cells_of_bounded_row (cells : list string) :
  Forall (fun c => PyStr.all_chars Table.cell_char c = true) cells ->
  row_cells (PyStr.strip (Table.bounded_row cells)) = map PyStr.strip cells.
Proof.
  intros H; rewrite strip_bounded_row.
  unfold row_cells, Table.bounded_row, PyStr.slice_1_m1.
  change (PyStr.split "|" ("|" ++ Table.closed_cells cells))
    with ("" :: PyStr.split "|" (Table.closed_cells cells)).
  rewrite (split_closed_cells cells H); simpl tl.
  now rewrite removelast_last.
Qed.

Lemma cells_of_bounded_row_witness :
  row_cells (PyStr.strip (Table.bounded_row ["[A](u)"; " 1.0  "; ""; "b"]))
  = map PyStr.strip ["[A](u)"; " 1.0  "; ""; "b"].
Proof.
  apply (cells_of_bounded_row ["[A](u)"; " 1.0  "; ""; "b"]).
  repeat constructor.
Defined.

(** X2: inside a table, a row of the documented layout (a link to a
    repository on github.com in the first cell, one or more version cells)
    that does not carry the no-source marker is parsed into the record made
    of its link text, URL, owner, repository and trimmed versions. *)
Theorem documented_row_is_parsed (link_text o r v : string)
        (vs : list string) :
  link_text <> "" -> o <> "" -> r <> "" ->
  PyStr.all_chars Table.text_char link_text = true ->
  PyStr.all_chars Table.segment_char o = true ->
  PyStr.all_chars Table.segment_char r = true ->
  Forall (fun c => PyStr.all_chars Table.cell_char c = true) (v :: vs) ->
  PyStr.contains NO_SRC (Table.link link_text (Table.repo_url o r)) = false ->
  parse_line true
    (Table.row (Table.link link_text (Table.repo_url o r) :: v :: vs))
  = Continue true
      (Some (mkPlugin link_text (Table.repo_url o r) o r
               (map PyStr.strip (v :: vs))
               (commit_hash_flag (map PyStr.strip (v :: vs))))).
Proof.
  intros Nt No Nr At Ao Ar Hv Hsrc.
  set (url := Table.repo_url o r).
  set (cell := Table.link link_text url).
  change (PyStr.contains NO_SRC cell = false) in Hsrc.
  assert (Aurl : PyStr.all_chars (Re.not_char ")") url = true).
  { apply repo_url_chars; [reflexivity | |];
      (eapply all_chars_impl; [exact segment_not_paren | assumption]). }
  assert (Acell : PyStr.all_chars Table.cell_char cell = true).
  { unfold cell, Table.link.
    assert (A1 : PyStr.all_chars Table.cell_char link_text = true).
    { eapply all_chars_impl; [|exact At].
      intros c H; unfold Table.text_char in H.
      now apply andb_true_iff in H as [_ H]. }
    assert (A2 : PyStr.all_chars Table.cell_char url = true).
    { apply repo_url_chars; [reflexivity | |];
        (eapply all_chars_impl; [exact segment_cell_char | assumption]). }
    now rewrite !all_chars_app, A1, A2. }
  assert (Scell : PyStr.strip cell = cell).
  { unfold cell, Table.link.
    replace ("[" ++ link_text ++ "](" ++ url ++ ")")
      with (String "[" ((link_text ++ "](" ++ url) ++ ")"))
      by (rewrite str_app_assoc; reflexivity).
    apply strip_keep; reflexivity. }
  assert (Hlink : Re.search Re.link_at cell = Some (link_text, url)).
  { apply search_here.
    change cell with ("[" ++ link_text ++ "](" ++ url ++ ")" ++ "").
    apply link_at_complete; try assumption.
    - unfold url, Table.repo_url; discriminate.
    - eapply all_chars_impl; [|exact At].
      intros c H; unfold Table.text_char in H.
      now apply andb_true_iff in H as [H _]. }
  assert (Hurl : PyStr.rstrip_char "/" url = url).
  { unfold url, Table.repo_url, PyStr.rstrip_char.
    replace ("https://github.com/" ++ o ++ "/" ++ r)
      with (("https://github.com/" ++ o ++ "/") ++ r)
      by (now rewrite !str_app_assoc).
    apply rstrip_by_app_keep; [assumption|].
    apply rstrip_by_keep.
    eapply all_chars_impl; [|exact Ar].
    intros c H; apply segment_not_slash in H.
    unfold Re.not_slash, Re.not_char in H; now rewrite Ascii.eqb_sym. }
  assert (Hgit : Re.search Re.github_at url = Some (o, r)).
  { apply github_url_plain; try assumption;
      (eapply all_chars_impl; [exact segment_not_slash | assumption]). }
  unfold parse_line; rewrite strip_row.
  change (PyStr.startswith (Table.row (cell :: v :: vs)) "| Plugin")
    with false.
  change (PyStr.startswith (Table.row (cell :: v :: vs)) "| ---")
    with false.
  change (PyStr.startswith (Table.row (cell :: v :: vs)) "|") with true.
  simpl orb; simpl andb; cbv iota.
  unfold parse_row.
  rewrite row_cells_row by (constructor; assumption).
  simpl map; rewrite Scell, Hsrc, Hlink, Hurl, Hgit.
  cbv zeta; simpl map; now rewrite strip_idem, map_strip_idem.
Qed.

Lemma documented_row_is_parsed_witness :
  parse_line true
    (Table.row (Table.link "PluginX" (Table.repo_url "acme" "pluginx")
                :: " 1.0.0" :: ["abcdef1"; ""]))
  = Continue true
      (Some (mkPlugin "PluginX" (Table.repo_url "acme" "pluginx")
               "acme" "pluginx"
               (map PyStr.strip (" 1.0.0" :: ["abcdef1"; ""]))
               (commit_hash_flag
                  (map PyStr.strip (" 1.0.0" :: ["abcdef1"; ""]))))).
Proof.
  apply (documented_row_is_parsed "PluginX" "acme" "pluginx" " 1.0.0"
                                  ["abcdef1"; ""]);
    try discriminate; try reflexivity.
  repeat constructor.
Defined.

(** ** The extent of the table *)

Lemma split_nonempty (sep : ascii) (s : string) : PyStr.split sep s <> [].
Proof.
  destruct s as [|c s]; simpl; [discriminate|].
  destruct (Ascii.eqb c sep); [discriminate|].
  destruct (PyStr.split sep s); discriminate.
Qed.

Lemma split_app (sep : ascii) (a b : string) :
  PyStr.split sep (a ++ String sep b)
  = (PyStr.split sep a ++ PyStr.split sep b)%list.
Proof.
  induction a as [|c a IH]; simpl.
  - now rewrite Ascii.eqb_refl.
  - destruct (Ascii.eqb c sep); [now rewrite IH|].
    rewrite IH.
    destruct (PyStr.split sep a) as [|piece pieces] eqn:E; [|reflexivity].
    now apply split_nonempty in E.
Qed.

Lemma prefix_head (a : ascii) (p s : string) :
  String.prefix (String a p) s = true -> String.prefix (String a "") s = true.
Proof.
  destruct s as [|b s]; simpl; [discriminate|].
  destruct (ascii_dec a b); [intros _; now destruct s | discriminate].
Qed.

Lemma header_is_row (raw : string) :
  Table.is_header raw = true -> Table.is_row raw = true.
Proof.
  unfold Table.is_header, Table.is_row, PyStr.startswith; intros H.
  apply orb_true_iff in H as [H|H]; exact (prefix_head "|" _ _ H).
Qed.

Lemma parse_line_header (in_table : bool) (raw : string) :
  Table.is_header raw = true -> parse_line in_table raw = Continue true None.
Proof.
  unfold Table.is_header, parse_line; now intros ->.
Qed.

Lemma parse_line_outside (raw : string) :
  Table.is_header raw = false -> parse_line false raw = Continue false None.
Proof.
  unfold Table.is_header, parse_line; now intros ->.
Qed.

Lemma parse_line_stop (raw : string) :
  Table.is_row raw = false -> parse_line true raw = Break.
Proof.
  intros H; unfold parse_line.
  destruct (PyStr.startswith (PyStr.strip raw) "| Plugin"
            || PyStr.startswith (PyStr.strip raw) "| ---") eqn:E.
  - apply header_is_row in E; congruence.
  - unfold Table.is_row in H; now rewrite H.
Qed.

Lemma parse_line_row (raw : string) :
  Table.is_row raw = true ->
  parse_line true raw = Continue true (Table.row_record raw).
Proof.
  intros H; unfold parse_line, Table.row_record, Table.is_header.
  destruct (PyStr.startswith (PyStr.strip raw) "| Plugin"
            || PyStr.startswith (PyStr.strip raw) "| ---");
    [reflexivity|].
  unfold Table.is_row in H; now rewrite H.
Qed.

Lemma parse_lines_cons (raw : string) (rest : list string)
      (in_table : bool) (plugins : list Plugin) :
  parse_lines (raw :: rest) in_table plugins
  = match parse_line in_table raw with
    | Break => plugins
    | Continue in_table' appended =>
        parse_lines rest in_table' (append_opt plugins appended)
    end.
Proof. reflexivity. Qed.

Lemma parse_lines_outside (lines : list string) (plugins : list Plugin) :
  Forall (fun raw => Table.is_header raw = false) lines ->
  parse_lines lines false plugins = plugins.
Proof.
  induction 1 as [|raw rest Hr _ IH]; simpl; [reflexivity|].
  now rewrite (parse_line_outside raw Hr).
Qed.

Lemma parse_lines_rows (rows : list string) (plugins : list Plugin) :
  Forall (fun raw => Table.is_row raw = true) rows ->
  parse_lines rows true plugins
  = (plugins ++ Table.keep Table.row_record rows)%list.
Proof.
  intros H; revert plugins.
  induction H as [|raw rest Hr _ IH]; intros plugins; simpl.
  - now rewrite app_nil_r.
  - rewrite (parse_line_row raw Hr), IH.
    destruct (Table.row_record raw) as [p|]; simpl; [|reflexivity].
    now rewrite <- app_assoc.
Qed.

Lemma parse_lines_stop (before after : list string) (stop : string)
      (in_table : bool) (plugins : list Plugin) :
  in_table = true \/ Exists (fun raw => Table.is_header raw = true) before ->
  Table.is_row stop = false ->
  parse_lines (before ++ stop :: after) in_table plugins
  = parse_lines before in_table plugins.
Proof.
  intros H Hs; revert in_table plugins H.
  induction before as [|raw rest IH]; intros in_table plugins H; simpl.
  - destruct H as [->|H]; [|inversion H].
    now rewrite (parse_line_stop stop Hs).
  - destruct (parse_line in_table raw) as [in_table' appended|] eqn:E;
      [|reflexivity].
    apply IH.
    destruct (Table.is_header raw) eqn:Hh.
    + rewrite (parse_line_header in_table raw Hh) in E.
      injection E as <- _; now left.
    + destruct H as [->|H].
      * left; unfold parse_line in E; unfold Table.is_header in Hh.
        rewrite Hh in E.
        destruct (true && negb (PyStr.startswith (PyStr.strip raw) "|"));
          [discriminate|].
        destruct (true && PyStr.startswith (PyStr.strip raw) "|");
          now injection E as <- _.
      * right; inversion H; subst; [congruence | assumption].
Qed.

(** X3: a text in which no line opens a table (no line that starts, once
    stripped, with [| Plugin] or [| ---]) yields no record, whatever rows it
    holds. *)
Theorem no_header_no_record (content : string) :
  Forall (fun raw => Table.is_header raw = false)
         (PyStr.split "010" content) ->
  parse_readme content = [].
Proof. apply parse_lines_outside. Qed.

Lemma no_header_no_record_witness :
  parse_readme Examples.release_row = [].
Proof.
  apply (no_header_no_record Examples.release_row).
  repeat constructor.
Defined.

(** X4: the table ends at the first line after its opening that does not
    start with the delimiter; nothing after that line is read, rows of a
    later table included. *)
Theorem text_after_table_is_ignored (before stop after : string) :
  Exists (fun raw => Table.is_header raw = true)
         (PyStr.split "010" before) ->
  Table.is_row stop = false ->
  PyStr.all_chars (Re.not_char "010") stop = true ->
  parse_readme (before ++ nl ++ stop ++ nl ++ after) = parse_readme before.
Proof.
  intros Hh Hs Hn; unfold parse_readme, nl.
  change (before ++ String "010" "" ++ stop ++ String "010" "" ++ after)
    with (before ++ String "010" (stop ++ String "010" after)).
  rewrite split_app, split_app, (split_no_sep _ _ Hn).
  apply (parse_lines_stop _ _ stop); auto.
Qed.

Lemma text_after_table_is_ignored_witness :
  parse_readme ((Examples.header ++ Examples.release_row) ++ nl ++ "" ++ nl
                ++ Examples.header ++ Examples.mirror_row)
  = parse_readme (Examples.header ++ Examples.release_row).
Proof.
  apply (text_after_table_is_ignored
           (Examples.header ++ Examples.release_row) ""
           (Examples.header ++ Examples.mirror_row)).
  - apply Exists_cons_hd; reflexivity.
  - reflexivity.
  - reflexivity.
Defined.

(** X5: the records of a table are those of its rows, in the order of the
    rows and at most one for each: after an opening line, when every line of
    the body starts with the delimiter, the result lists what each line
    contributes. *)
Theorem records_follow_rows (opening body : string) :
  Table.is_header opening = true ->
  PyStr.all_chars (Re.not_char "010") opening = true ->
  Forall (fun raw => Table.is_row raw = true) (PyStr.split "010" body) ->
  parse_readme (opening ++ nl ++ body)
  = Table.keep Table.row_record (PyStr.split "010" body).
Proof.
  intros Hh Hn Hr; unfold parse_readme, nl.
  change (opening ++ String "010" "" ++ body)
    with (opening ++ String "010" body).
  rewrite split_app, (split_no_sep _ _ Hn).
  change (parse_lines (opening :: PyStr.split "010" body) false []
          = Table.keep Table.row_record (PyStr.split "010" body)).
  rewrite parse_lines_cons, (parse_line_header false opening Hh).
  unfold append_opt; now rewrite (parse_lines_rows _ [] Hr).
Qed.

Lemma records_follow_rows_witness :
  parse_readme ("| Plugin | ES 3.2.3 | ES 3.2.9 |" ++ nl
                ++ ("| --- | --- | --- |" ++ nl ++ Examples.release_row
                    ++ nl ++ Examples.foreign_row ++ nl
                    ++ Examples.mirror_row))
  = Table.keep Table.row_record
      (PyStr.split "010"
         ("| --- | --- | --- |" ++ nl ++ Examples.release_row
          ++ nl ++ Examples.foreign_row ++ nl ++ Examples.mirror_row)).
Proof.
  apply (records_follow_rows
           "| Plugin | ES 3.2.3 | ES 3.2.9 |"
           ("| --- | --- | --- |" ++ nl ++ Examples.release_row
            ++ nl ++ Examples.foreign_row ++ nl ++ Examples.mirror_row)).
  - reflexivity.
  - reflexivity.
  - repeat constructor.
Defined.

(** ** The fields of a record *)

Lemma split_pieces (sep : ascii) (s piece : string) :
  In piece (PyStr.split sep s) ->
  PyStr.all_chars (Re.not_char sep) piece = true.
Proof.
  revert piece; induction s as [|c s IH]; simpl; intros piece H.
  - destruct H as [<-|[]]; reflexivity.
  - destruct (Ascii.eqb c sep) eqn:E.
    + destruct H as [<-|H]; [reflexivity | now apply IH].
    + destruct (PyStr.split sep s) as [|first pieces].
      * destruct H as [<-|[]]; simpl; unfold Re.not_char; now rewrite E.
      * destruct H as [<-|H].
        -- simpl; unfold Re.not_char at 1; rewrite E; simpl.
           apply IH; now left.
        -- apply IH; now right.
Qed.

Lemma all_chars_lstrip (q p : ascii -> bool) (s : string) :
  PyStr.all_chars q s = true -> PyStr.all_chars q (PyStr.lstrip_by p s) = true.
Proof.
  induction s as [|a s IH]; simpl; [reflexivity|].
  intros H; destruct (p a); [|exact H].
  apply andb_true_iff in H as [_ H]; auto.
Qed.

Lemma all_chars_rstrip (q p : ascii -> bool) (s : string) :
  PyStr.all_chars q s = true -> PyStr.all_chars q (PyStr.rstrip_by p s) = true.
Proof.
  induction s as [|a s IH]; [reflexivity|].
  rewrite rstrip_by_step; simpl; intros H.
  apply andb_true_iff in H as [Qa H]; specialize (IH H).
  destruct (PyStr.rstrip_by p s); [destruct (p a)|]; simpl;
    rewrite ?Qa; auto.
Qed.

Lemma all_chars_strip (q : ascii -> bool) (s : string) :
  PyStr.all_chars q s = true -> PyStr.all_chars q (PyStr.strip s) = true.
Proof.
  intros H; now apply all_chars_rstrip, all_chars_lstrip.
Qed.

Lemma in_slice (A : Type) (l : list A) (x : A) :
  In x (PyStr.slice_1_m1 l) -> In x l.
Proof.
  unfold PyStr.slice_1_m1; destruct l as [|a l]; simpl; [auto|].
  intros H; right; revert H.
  induction l as [|b l IH]; simpl; [auto|].
  destruct l; [intros [] | intros [<-|H]; [now left | right; auto]].
Qed.

Lemma row_cells_chars (line cell : string) :
  In cell (row_cells line) ->
  PyStr.strip cell = cell /\ PyStr.all_chars Table.cell_char cell = true.
Proof.
  unfold row_cells; intros H; apply in_map_iff in H as (piece & <- & H).
  split; [apply strip_idem|].
  apply all_chars_strip, (split_pieces "|" line), (in_slice _ _ _ H).
Qed.

(** X6: the fields of every parsed record are clean: each recorded version
    is a cell of the row as it stands (stripping it again changes nothing)
    and holds no delimiter, the URL has no trailing slash and no closing
    parenthesis, and the name is a non-empty text without a closing
    bracket. *)
Theorem parsed_fields_are_trimmed (content : string) (p : Plugin) :
  In p (parse_readme content) ->
  (forall v, In v (versions p) ->
             PyStr.strip v = v /\ PyStr.all_chars Table.cell_char v = true)
  /\ PyStr.rstrip_char "/" (github_url p) = github_url p
  /\ PyStr.all_chars (Re.not_char ")") (github_url p) = true
  /\ name p <> ""
  /\ PyStr.all_chars (Re.not_char "]") (name p) = true.
Proof.
  intros H.
  apply parse_readme_in in H as (raw & _ & Hrow).
  apply parse_row_inv in Hrow
    as (cell & v0 & vrest & url & Hc & _ & Hl & Hu & _ & Hv & _).
  destruct (search_sound _ _ _ Hl) as (pre & post & _ & Hat & _).
  apply link_at_sound in Hat as (rest & _ & Nn & _ & An & Au).
  split; [|split; [|split; [|split]]]; try assumption.
  - intros v Hin; rewrite Hv in Hin.
    apply in_map_iff in Hin as (c & <- & Hin).
    assert (Hcell : In c (row_cells (PyStr.strip raw)))
      by (rewrite Hc; now right).
    apply row_cells_chars in Hcell as [Hs Ha].
    rewrite Hs; auto.
  - rewrite Hu; apply rstrip_by_idem.
  - rewrite Hu; now apply all_chars_rstrip.
Qed.

Lemma parsed_fields_are_trimmed_witness :
  (forall v, In v (versions Examples.plugin_x) ->
             PyStr.strip v = v /\ PyStr.all_chars Table.cell_char v = true)
  /\ PyStr.rstrip_char "/" (github_url Examples.plugin_x)
     = github_url Examples.plugin_x
  /\ PyStr.all_chars (Re.not_char ")") (github_url Examples.plugin_x) = true
  /\ name Examples.plugin_x <> ""
  /\ PyStr.all_chars (Re.not_char "]") (name Examples.plugin_x) = true.
Proof.
  apply (parsed_fields_are_trimmed
           (Examples.header ++ Examples.release_row) Examples.plugin_x).
  vm_compute; left; reflexivity.
Defined.

(** ** The comparator *)

Lemma lower_char_idem (c : ascii) :
  PyStr.lower_char (PyStr.lower_char c) = PyStr.lower_char c.
Proof. destruct c as [[] [] [] [] [] [] [] []]; reflexivity. Qed.

Lemma lower_idem (s : string) : PyStr.lower (PyStr.lower s) = PyStr.lower s.
Proof.
  induction s as [|c s IH]; simpl; [reflexivity|].
  now rewrite lower_char_idem, IH.
Qed.

Lemma string_eqb_sym (a b : string) : String.eqb a b = String.eqb b a.
Proof.
  destruct (String.eqb a b) eqn:E.
  - apply String.eqb_eq in E; subst; symmetry; apply String.eqb_refl.
  - apply String.eqb_neq in E; symmetry; apply String.eqb_neq; congruence.
Qed.

(** X7: in commit mode the comparison is symmetric, never finds an
    identifier outdated against itself, and does not see the case of
    letters: replacing either side by its lower-case form changes
    nothing. *)
Theorem commit_mode_ignores_case {pk : Packaging} (a b : string) :
  is_version_outdated a a true = false
  /\ is_version_outdated a b true = is_version_outdated b a true
  /\ is_version_outdated (PyStr.lower a) b true = is_version_outdated a b true
  /\ is_version_outdated a (PyStr.lower b) true = is_version_outdated a b true.
Proof.
  unfold is_version_outdated; repeat split.
  - now rewrite String.eqb_refl.
  - now rewrite string_eqb_sym.
  - now rewrite lower_idem.
  - now rewrite lower_idem.
Qed.

Lemma is_version_outdated_same {pk : Packaging} (v : string) (mode : bool) :
  (forall x, version_lt x x = false) ->
  is_version_outdated v v mode = false.
Proof.
  intros Hirr; unfold is_version_outdated.
  destruct mode; [now rewrite String.eqb_refl|].
  destruct (version_parse v); [apply Hirr | now rewrite String.eqb_refl].
Qed.

Lemma up_to_date_not_outdated {pk : Packaging} (plugin : Plugin)
      (latest : string) :
  (forall x, version_lt x x = false) ->
  (forall v, In v (versions plugin) -> v = "" \/ v = latest) ->
  any_outdated plugin latest = false.
Proof.
  intros Hirr Hv; unfold any_outdated.
  destruct (fst (scan_versions (versions plugin) latest
                               (is_commit_hash plugin))) eqn:E;
    [|reflexivity].
  apply scan_versions_true in E as (v & Hin & Hne & Ho).
  destruct (Hv v Hin) as [->| ->]; [congruence|].
  now rewrite is_version_outdated_same in Ho.
Qed.

Lemma dotted_lt_irrefl (x : list N) : Mock.dotted_lt x x = false.
Proof.
  induction x as [|n x IH]; simpl; [reflexivity|].
  now rewrite N.ltb_irrefl, IH, andb_false_r.
Qed.

Section Reconciled.
Context {pk : Packaging} {W Repo : Type} {gh : Github W Repo}.
Variable set_iter : list string -> list string.

(** X8: when the order of versions is irreflexive, a plugin whose recorded
    versions are all blank or equal to the resolved latest is reported as
    [OK]: the step makes no request to the service and leaves the counter of
    updates as it was. *)
Theorem up_to_date_plugin_is_left_alone (args : Args) (plugin : Plugin)
        (latest : string) (updates_found : Z) (s : state W) :
  (forall x, version_lt x x = false) ->
  (forall v, In v (versions plugin) -> v = "" \/ v = latest) ->
  reconcile set_iter args plugin latest updates_found s
  = (Return updates_found,
     mkState (world s) (log s ++ [Stdout ("OK" ++ nl)])%list).
Proof.
  intros Hirr Hv; unfold reconcile.
  now rewrite (up_to_date_not_outdated plugin latest Hirr Hv).
Qed.

End Reconciled.

Lemma up_to_date_plugin_is_left_alone_witness :
  reconcile (gh := Mock.github Examples.double_v_service)
            (pk := Mock.dotted) Examples.insertion_order
            (Examples.args_for (Some "token") false)
            Examples.plugin_x "1.0.0" 0%Z (Mock.start [])
  = (Return 0%Z,
     mkState (world (Mock.start []))
             (log (Mock.start []) ++ [Stdout ("OK" ++ nl)])%list).
Proof.
  apply (@up_to_date_plugin_is_left_alone
           Mock.dotted Mock.world Mock.repo_data
           (Mock.github Examples.double_v_service)
           Examples.insertion_order
           (Examples.args_for (Some "token") false)
           Examples.plugin_x "1.0.0" 0%Z (Mock.start [])).
  - exact dotted_lt_irrefl.
  - intros v [<-|[<-|[]]]; now right.
Defined.

(** ** The resolver *)

Lemma take_length (n : nat) (s : string) :
  (String.length (PyStr.take n s) <= n)%nat.
Proof.
  revert s; induction n as [|n IH]; intros [|c s]; simpl; try lia.
  specialize (IH s); lia.
Qed.

Lemma lstrip_char_no_lead (c : ascii) (s : string) :
  PyStr.startswith (PyStr.lstrip_char c s) (String c "") = false.
Proof.
  unfold PyStr.startswith, PyStr.lstrip_char.
  destruct (PyStr.lstrip_by (Ascii.eqb c) s) as [|a r] eqn:E; [reflexivity|].
  apply lstrip_by_head in E; simpl.
  destruct (ascii_dec c a) as [->|]; [|reflexivity].
  now rewrite Ascii.eqb_refl in E.
Qed.

(** What a resolved version looks like in either mode. *)
Definition resolved_shape (plugin : Plugin) (v : string) : Prop :=
  if is_commit_hash plugin
  then (String.length v <= 7)%nat
  else PyStr.startswith v "v" = false.

Section Resolver.
Context {pk : Packaging} {W Repo : Type} {gh : Github W Repo}.
Variable set_iter : list string -> list string.

Ltac steps :=
  repeat first
    [ apply runs_bind
    | apply runs_try
    | apply runs_call; intros
    | apply runs_emit
    | apply runs_ret
    | apply runs_raise ];
  cbv beta iota.

Lemma get_latest_version_answers (plugin : Plugin) :
  runs (get_latest_version plugin)
       (fun o _ =>
          (forall v, o = Return (Some v) -> resolved_shape plugin v)
          /\ (is_commit_hash plugin = false -> exists r, o = Return r)).
Proof.
  unfold get_latest_version, print_err, resolved_shape.
  apply runs_try, runs_bind, runs_call.
  - intros r. destruct (is_commit_hash plugin).
    + apply runs_bind, runs_call.
      * intros [|sha shas]; unfold index0; steps.
        -- split; [discriminate | discriminate].
        -- split; [|discriminate].
           intros v E; injection E as <-; exact (take_length 7 sha).
      * intros e; steps. split; [discriminate | discriminate].
    + apply runs_try, runs_bind, runs_call.
      * intros tag; steps. split; [|eauto].
        intros v E; injection E as <-; apply lstrip_char_no_lead.
      * intros e; destruct (status e =? 404)%Z.
        -- apply runs_bind, runs_call.
           ++ intros [|t ts]; steps.
              ** split; [discriminate | eauto].
              ** split; [|eauto].
                 intros v E; injection E as <-; apply lstrip_char_no_lead.
           ++ intros e2; steps. split; [discriminate | eauto].
        -- steps. split; [discriminate | eauto].
  - intros e; steps. split; [discriminate|].
    destruct (is_commit_hash plugin); [discriminate | eauto].
Qed.

(** X9: whatever the service answers, a version resolved for a
    commit-tracked plugin has at most seven characters, and a version
    resolved for a release-tracked plugin does not start with the letter
    v. *)
Theorem resolved_version_shape (plugin : Plugin) (s s' : state W)
        (v : string) :
  get_latest_version plugin s = (Return (Some v), s') ->
  if is_commit_hash plugin
  then (String.length v <= 7)%nat
  else PyStr.startswith v "v" = false.
Proof.
  intros H.
  destruct (get_latest_version_answers plugin s)
    as (o & tail & w' & E & Hshape & _).
  rewrite E in H; injection H as -> _.
  exact (Hshape v eq_refl).
Qed.

(** X10: for a release-tracked plugin the resolver always returns to its
    caller, with a version or with [None]; no answer of the service makes it
    raise. *)
Theorem release_mode_resolver_returns (plugin : Plugin) (s : state W) :
  is_commit_hash plugin = false ->
  exists r s', get_latest_version plugin s = (Return r, s').
Proof.
  intros Hm.
  destruct (get_latest_version_answers plugin s)
    as (o & tail & w' & E & _ & Hret).
  destruct (Hret Hm) as (r & ->); eauto.
Qed.

End Resolver.

Lemma resolved_version_shape_witness :
  if is_commit_hash Examples.plugin_x
  then (String.length "1.1.0" <= 7)%nat
  else PyStr.startswith "1.1.0" "v" = false.
Proof.
  apply (@resolved_version_shape
           Mock.world Mock.repo_data
           (Mock.github Examples.double_v_service)
           Examples.plugin_x (Mock.start [])
           (mkState []
              [Request (GetRepo "acme/pluginx"); Request GetLatestRelease])
           "1.1.0").
  vm_compute; reflexivity.
Defined.

Lemma release_mode_resolver_returns_witness :
  exists r s',
    get_latest_version (gh := Mock.github Examples.double_v_tag_service)
                       Examples.plugin_x (Mock.start [])
    = (Return r, s').
Proof.
  apply (@release_mode_resolver_returns
           Mock.world Mock.repo_data
           (Mock.github Examples.double_v_tag_service)
           Examples.plugin_x (Mock.start [])).
  reflexivity.
Defined.

Section ResolverCases.
Context {pk : Packaging} {W Repo : Type} {gh : Github W Repo}.
Variable set_iter : list string -> list string.

Ltac unfold_run :=
  unfold get_latest_version, check_for_existing_issue, create_issue,
    try_except, bind, call, index0, ret, raise, print, print_err,
    print_end_space, emit; simpl.

(** X11: when the service reports with status 404 that a release-tracked
    repository has no release, the resolver lists the tags and answers with
    the first one, its leading v removed; nothing is written to the error
    stream. *)
Theorem missing_release_falls_back_to_first_tag
        (plugin : Plugin) (s : state W) (r : Repo) (w1 w2 w3 : W)
        (e : GithubException) (tag : string) (tags : list string) :
  is_commit_hash plugin = false ->
  get_repo (owner plugin ++ "/" ++ repo plugin) (world s) = (Ok r, w1) ->
  get_latest_release r w1 = (Fails e, w2) ->
  status e = 404%Z ->
  get_tags r w2 = (Ok (tag :: tags), w3) ->
  get_latest_version plugin s
  = (Return (Some (PyStr.lstrip_char "v" tag)),
     mkState w3
       (log s ++ [Request (GetRepo (owner plugin ++ "/" ++ repo plugin));
                  Request GetLatestRelease; Request GetTags])%list).
Proof.
  intros Hm Hrepo Hrel Hst Htags; unfold_run; simpl in Hrepo.
  rewrite Hrepo, Hm; simpl; rewrite Hrel; simpl; rewrite Hst; simpl.
  rewrite Htags; simpl; now rewrite <- !app_assoc.
Qed.

(** X12: a failure of the latest-release lookup with a status other than 404
    is reported as it is: the resolver answers [None], writes the message of
    that failure to the error stream and never lists the tags. *)
Theorem release_failure_is_reported_without_tags
        (plugin : Plugin) (s : state W) (r : Repo) (w1 w2 : W)
        (e : GithubException) :
  is_commit_hash plugin = false ->
  get_repo (owner plugin ++ "/" ++ repo plugin) (world s) = (Ok r, w1) ->
  get_latest_release r w1 = (Fails e, w2) ->
  status e <> 404%Z ->
  get_latest_version plugin s
  = (Return None,
     mkState w2
       (log s ++ [Request (GetRepo (owner plugin ++ "/" ++ repo plugin));
                  Request GetLatestRelease;
                  Stderr (("Error fetching version for " ++ name plugin
                           ++ ": " ++ message e) ++ nl)])%list).
Proof.
  intros Hm Hrepo Hrel Hst; unfold_run; simpl in Hrepo.
  rewrite Hrepo, Hm; simpl; rewrite Hrel; simpl.
  apply Z.eqb_neq in Hst; rewrite Hst; simpl; now rewrite <- !app_assoc.
Qed.

(** X13: when there is no release (status 404) and no tag either, the
    resolver answers [None] and the line on the error stream carries the
    message of the 404 failure of the release lookup. *)
Theorem missing_release_without_tags_is_reported
        (plugin : Plugin) (s : state W) (r : Repo) (w1 w2 w3 : W)
        (e : GithubException) :
  is_commit_hash plugin = false ->
  get_repo (owner plugin ++ "/" ++ repo plugin) (world s) = (Ok r, w1) ->
  get_latest_release r w1 = (Fails e, w2) ->
  status e = 404%Z ->
  get_tags r w2 = (Ok [], w3) ->
  get_latest_version plugin s
  = (Return None,
     mkState w3
       (log s ++ [Request (GetRepo (owner plugin ++ "/" ++ repo plugin));
                  Request GetLatestRelease; Request GetTags;
                  Stderr (("Error fetching version for " ++ name plugin
                           ++ ": " ++ message e) ++ nl)])%list).
Proof.
  intros Hm Hrepo Hrel Hst Htags; unfold_run; simpl in Hrepo.
  rewrite Hrepo, Hm; simpl; rewrite Hrel; simpl; rewrite Hst; simpl.
  rewrite Htags; simpl; now rewrite <- !app_assoc.
Qed.

(** X14: for a commit-tracked plugin whose commit listing comes back empty,
    [commits[0]] raises [IndexError]; the loop over the plugins does not
    catch it, so the run ends there and the plugins that follow are never
    checked. *)
Theorem empty_commit_listing_ends_the_run
        (args : Args) (plugin : Plugin) (rest : list Plugin)
        (counters : Z * Z) (s : state W) (r : Repo) (w1 w2 : W) :
  is_commit_hash plugin = true ->
  get_repo (owner plugin ++ "/" ++ repo plugin) (world s) = (Ok r, w1) ->
  get_commits r (default_branch r) w1 = (Ok [], w2) ->
  check_plugins set_iter args (plugin :: rest) counters s
  = (Raise EIndexError,
     mkState w2
       (log s ++ [Stdout (("Checking " ++ name plugin ++ "...") ++ " ");
                  Request (GetRepo (owner plugin ++ "/" ++ repo plugin));
                  Request (GetCommits (default_branch r))])%list).
Proof.
  intros Hm Hrepo Hcom; destruct counters as [u e].
  unfold check_plugins, check_plugin; unfold_run; simpl in Hrepo.
  rewrite Hrepo, Hm; simpl; rewrite Hcom; simpl; now rewrite <- !app_assoc.
Qed.

End ResolverCases.

Lemma missing_release_falls_back_to_first_tag_witness :
  get_latest_version (gh := Mock.github Examples.double_v_tag_service)
                     Examples.plugin_x (Mock.start [])
  = (Return (Some (PyStr.lstrip_char "v" "vv2.0")),
     mkState []
       (log (Mock.start [])
        ++ [Request (GetRepo (owner Examples.plugin_x ++ "/"
                              ++ repo Examples.plugin_x));
            Request GetLatestRelease; Request GetTags])%list).
Proof.
  apply (@missing_release_falls_back_to_first_tag
           Mock.world Mock.repo_data
           (Mock.github Examples.double_v_tag_service)
           Examples.plugin_x (Mock.start []) Scenarios.tagged_repo
           [] [] [] Mock.not_found "vv2.0" ["v1.9"]);
    reflexivity.
Defined.

Lemma release_failure_is_reported_without_tags_witness :
  get_latest_version (gh := Mock.github Scenarios.broken_release_service)
                     Examples.plugin_x (Mock.start [])
  = (Return None,
     mkState []
       (log (Mock.start [])
        ++ [Request (GetRepo (owner Examples.plugin_x ++ "/"
                              ++ repo Examples.plugin_x));
            Request GetLatestRelease;
            Stderr (("Error fetching version for " ++ name Examples.plugin_x
                     ++ ": " ++ message Scenarios.bad_gateway) ++ nl)])%list).
Proof.
  apply (@release_failure_is_reported_without_tags
           Mock.world Mock.repo_data
           (Mock.github Scenarios.broken_release_service)
           Examples.plugin_x (Mock.start []) Scenarios.broken_repo
           [] [] Scenarios.bad_gateway);
    try reflexivity.
  discriminate.
Defined.

Lemma missing_release_without_tags_is_reported_witness :
  get_latest_version (gh := Mock.github Examples.empty_listing_service)
                     Scenarios.hashy_by_release (Mock.start [])
  = (Return None,
     mkState []
       (log (Mock.start [])
        ++ [Request (GetRepo (owner Scenarios.hashy_by_release ++ "/"
                              ++ repo Scenarios.hashy_by_release));
            Request GetLatestRelease; Request GetTags;
            Stderr (("Error fetching version for "
                     ++ name Scenarios.hashy_by_release
                     ++ ": " ++ message Mock.not_found) ++ nl)])%list).
Proof.
  apply (@missing_release_without_tags_is_reported
           Mock.world Mock.repo_data
           (Mock.github Examples.empty_listing_service)
           Scenarios.hashy_by_release (Mock.start []) Scenarios.bare_repo
           [] [] [] Mock.not_found);
    reflexivity.
Defined.

Lemma empty_commit_listing_ends_the_run_witness :
  check_plugins (gh := Mock.github Examples.empty_listing_service)
                (pk := Mock.dotted) Examples.insertion_order Scenarios.args
                (Scenarios.hashy_by_commit :: [Examples.plugin_x])
                (0, 0)%Z (Mock.start [])
  = (Raise EIndexError,
     mkState []
       (log (Mock.start [])
        ++ [Stdout (("Checking " ++ name Scenarios.hashy_by_commit ++ "...")
                    ++ " ");
            Request (GetRepo (owner Scenarios.hashy_by_commit ++ "/"
                              ++ repo Scenarios.hashy_by_commit));
            Request (GetCommits
                       (default_branch
                          (Github := Mock.github Examples.empty_listing_service)
                          Scenarios.bare_repo))])%list).
Proof.
  apply (@empty_commit_listing_ends_the_run
           Mock.dotted Mock.world Mock.repo_data
           (Mock.github Examples.empty_listing_service)
           Examples.insertion_order Scenarios.args
           Scenarios.hashy_by_commit [Examples.plugin_x] (0, 0)%Z
           (Mock.start []) Scenarios.bare_repo [] []);
    reflexivity.
Defined.

(** ** The reconciler *)

Section Reconciler.
Context {pk : Packaging} {W Repo : Type} {gh : Github W Repo}.
Variable file_system : string -> file.
Variable set_iter : list string -> list string.

Ltac unfold_all :=
  unfold reconcile, check_for_existing_issue, create_issue,
    try_except, bind, call, index0, ret, raise, print, print_err,
    print_end_space, emit; simpl.

Ltac ok_steps :=
  repeat first
    [ apply runs_bind
    | apply runs_try
    | apply runs_call; intros
    | apply runs_emit
    | apply runs_ret
    | apply runs_raise ];
  cbv beta iota.

(** X15: when the open issues of the target repository can be listed, the
    search answers [True] exactly when one of them carries the title
    [Update <name> to <version>], character for character; it writes nothing
    to the error stream. *)
Theorem existing_issue_found_iff_title_listed
        (repo_name plugin_name new_version : string) (s : state W)
        (r : Repo) (w1 w2 : W) (issues : list string) :
  get_repo repo_name (world s) = (Ok r, w1) ->
  get_issues r "open" ["version-update"] w1 = (Ok issues, w2) ->
  exists found,
    check_for_existing_issue repo_name plugin_name new_version s
    = (Return found,
       mkState w2
         (log s ++ [Request (GetRepo repo_name);
                    Request (GetIssues "open" ["version-update"])])%list)
    /\ (found = true
        <-> In ("Update " ++ plugin_name ++ " to " ++ new_version) issues).
Proof.
  intros Hrepo Hissues.
  exists (existsb (String.eqb (issue_title plugin_name new_version)) issues).
  split.
  - unfold_all; rewrite Hrepo; simpl; rewrite Hissues; simpl.
    now rewrite <- !app_assoc.
  - rewrite existsb_exists; unfold issue_title; split.
    + intros (x & Hin & E); apply String.eqb_eq in E; now subst.
    + intros Hin; eexists; split; [exact Hin | apply String.eqb_refl].
Qed.

(** X16: for an outdated plugin whose update already has an open issue with
    the exact title, the orchestrator reports the update, says that the
    issue exists and goes on: no issue is created and the counter of updates
    is not incremented. *)
Theorem existing_issue_skips_creation
        (args : Args) (plugin : Plugin) (latest : string) (updates_found : Z)
        (s : state W) (r : Repo) (w1 w2 : W) (issues : list string) :
  any_outdated plugin latest = true ->
  get_repo (target_repo args) (world s) = (Ok r, w1) ->
  get_issues r "open" ["version-update"] w1 = (Ok issues, w2) ->
  In (issue_title (name plugin) latest) issues ->
  reconcile set_iter args plugin latest updates_found s
  = (Return updates_found,
     mkState w2
       (log s ++ [Stdout (("UPDATE AVAILABLE: " ++ latest) ++ nl);
                  Request (GetRepo (target_repo args));
                  Request (GetIssues "open" ["version-update"]);
                  Stdout ("  Issue already exists, skipping" ++ nl)])%list).
Proof.
  intros Ha Hrepo Hissues Hin.
  assert (Hex : existsb (String.eqb (issue_title (name plugin) latest))
                        issues = true).
  { apply existsb_exists; eexists; split;
      [exact Hin | apply String.eqb_refl]. }
  unfold reconcile; rewrite Ha; unfold_all; simpl in Hex.
  rewrite Hrepo; simpl; rewrite Hissues; simpl; rewrite Hex; simpl.
  now rewrite <- !app_assoc.
Qed.

(** X17: for an outdated plugin without an open issue of that title, on a
    service that answers every request, one issue is created: a single
    creation request with the title [Update <name> to <version>], the built
    body and the labels version-update and automated, after which the
    number of the new issue is printed and the update is counted. *)
Theorem missing_issue_is_created_once
        (args : Args) (plugin : Plugin) (latest : string) (updates_found : Z)
        (s : state W) (r r' : Repo) (w1 w2 w3 w4 : W)
        (issues : list string) (number : Z) :
  any_outdated plugin latest = true ->
  dry_run args = false ->
  get_repo (target_repo args) (world s) = (Ok r, w1) ->
  get_issues r "open" ["version-update"] w1 = (Ok issues, w2) ->
  ~ In (issue_title (name plugin) latest) issues ->
  get_repo (target_repo args) w2 = (Ok r', w3) ->
  repo_create_issue r' (issue_title (name plugin) latest)
                    (issue_body set_iter plugin latest)
                    ["version-update"; "automated"] w3
  = (Ok number, w4) ->
  reconcile set_iter args plugin latest updates_found s
  = (Return (updates_found + 1)%Z,
     mkState w4
       (log s ++ [Stdout (("UPDATE AVAILABLE: " ++ latest) ++ nl);
                  Request (GetRepo (target_repo args));
                  Request (GetIssues "open" ["version-update"]);
                  Request (GetRepo (target_repo args));
                  Request (CreateIssue (issue_title (name plugin) latest)
                                       (issue_body set_iter plugin latest)
                                       ["version-update"; "automated"]);
                  Stdout (("Created issue #" ++ PyStr.str_of_Z number ++ ": "
                           ++ issue_title (name plugin) latest) ++ nl)])%list).
Proof.
  intros Ha Hd Hrepo Hissues Hnot Hrepo' Hcreate.
  assert (Hex : existsb (String.eqb (issue_title (name plugin) latest))
                        issues = false).
  { destruct (existsb _ issues) eqn:E; [|reflexivity].
    apply existsb_exists in E as (x & Hin & E).
    apply String.eqb_eq in E; now subst x. }
  unfold reconcile; rewrite Ha, Hd; unfold_all.
  simpl in Hex, Hcreate.
  rewrite Hrepo; simpl; rewrite Hissues; simpl; rewrite Hex; simpl.
  rewrite Hrepo'; simpl.
  unfold issue_labels; rewrite Hcreate; simpl.
  now rewrite <- !app_assoc.
Qed.

(** The creation step asks for at most one issue, and for no other than the
    one it was called for. *)
Lemma create_issue_asks (repo_name : string) (plugin : Plugin)
      (v : string) (dry : bool) :
  runs (create_issue set_iter repo_name plugin v dry)
       (fun o tail =>
          o = Return tt
          /\ (count is_create tail <= 1)%nat
          /\ forall title body labels,
              In (Request (CreateIssue title body labels)) tail ->
              title = issue_title (name plugin) v
              /\ body = issue_body set_iter plugin v
              /\ labels = ["version-update"; "automated"]).
Proof.
  unfold create_issue, print, print_err; destruct dry.
  - ok_steps. split; [reflexivity|]. split; [counts|].
    intros title body labels H; simpl in H.
    repeat (destruct H as [H|H]; [discriminate|]); destruct H.
  - apply runs_try, runs_bind, runs_call.
    + intros r; apply runs_bind, runs_call.
      * intros n; ok_steps. split; [reflexivity|]. split; [counts|].
        intros title body labels H; simpl in H.
        destruct H as [H|[H|[H|[]]]]; try discriminate.
        now injection H as <- <- <-.
      * intros e; ok_steps. split; [reflexivity|]. split; [counts|].
        intros title body labels H; simpl in H.
        destruct H as [H|[H|[H|[]]]]; try discriminate.
        now injection H as <- <- <-.
    + intros e; ok_steps. split; [reflexivity|]. split; [counts|].
      intros title body labels H; simpl in H.
      destruct H as [H|[H|[]]]; discriminate.
Qed.

(** X18: whatever the service answers, [create_issue] returns normally; it
    asks the service to create at most one issue, and only the one with the
    title, body and labels of the update it was called for. *)
Theorem create_issue_asks_at_most_once (repo_name : string) (plugin : Plugin)
        (new_version : string) (dry : bool) (s : state W) :
  exists tail w',
    create_issue set_iter repo_name plugin new_version dry s
    = (Return tt, mkState w' (log s ++ tail)%list)
    /\ (count is_create tail <= 1)%nat
    /\ forall title body labels,
        In (Request (CreateIssue title body labels)) tail ->
        title = "Update " ++ name plugin ++ " to " ++ new_version
        /\ body = issue_body set_iter plugin new_version
        /\ labels = ["version-update"; "automated"].
Proof.
  destruct (create_issue_asks repo_name plugin new_version dry s)
    as (o & tail & w' & E & -> & Hc & Hin).
  exists tail, w'; auto.
Qed.

End Reconciler.

Lemma existing_issue_found_iff_title_listed_witness :
  exists found,
    check_for_existing_issue
      (gh := Mock.github Scenarios.healthy_service)
      "me/tracker" "PluginX" "1.1.0"
      (Mock.start ["Update Other to 2.0"; "Update PluginX to 1.1.0"])
    = (Return found,
       mkState ["Update Other to 2.0"; "Update PluginX to 1.1.0"]
         (log (Mock.start ["Update Other to 2.0"; "Update PluginX to 1.1.0"])
          ++ [Request (GetRepo "me/tracker");
              Request (GetIssues "open" ["version-update"])])%list)
    /\ (found = true
        <-> In ("Update " ++ "PluginX" ++ " to " ++ "1.1.0")
               ["Update Other to 2.0"; "Update PluginX to 1.1.0"]).
Proof.
  apply (@existing_issue_found_iff_title_listed
           Mock.world Mock.repo_data
           (Mock.github Scenarios.healthy_service)
           "me/tracker" "PluginX" "1.1.0"
           (Mock.start ["Update Other to 2.0"; "Update PluginX to 1.1.0"])
           Scenarios.tracker_repo
           ["Update Other to 2.0"; "Update PluginX to 1.1.0"]
           ["Update Other to 2.0"; "Update PluginX to 1.1.0"]
           ["Update Other to 2.0"; "Update PluginX to 1.1.0"]);
    reflexivity.
Defined.

Lemma existing_issue_skips_creation_witness :
  reconcile (gh := Mock.github Scenarios.healthy_service)
            (pk := Mock.dotted) Examples.insertion_order Scenarios.args
            Examples.plugin_x "1.1.0" 0%Z
            (Mock.start ["Update PluginX to 1.1.0"])
  = (Return 0%Z,
     mkState ["Update PluginX to 1.1.0"]
       (log (Mock.start ["Update PluginX to 1.1.0"])
        ++ [Stdout (("UPDATE AVAILABLE: " ++ "1.1.0") ++ nl);
            Request (GetRepo (target_repo Scenarios.args));
            Request (GetIssues "open" ["version-update"]);
            Stdout ("  Issue already exists, skipping" ++ nl)])%list).
Proof.
  apply (@existing_issue_skips_creation
           Mock.dotted Mock.world Mock.repo_data
           (Mock.github Scenarios.healthy_service)
           Examples.insertion_order Scenarios.args
           Examples.plugin_x "1.1.0" 0%Z
           (Mock.start ["Update PluginX to 1.1.0"])
           Scenarios.tracker_repo
           ["Update PluginX to 1.1.0"] ["Update PluginX to 1.1.0"]
           ["Update PluginX to 1.1.0"]);
    try reflexivity.
  now left.
Defined.

Lemma missing_issue_is_created_once_witness :
  reconcile (gh := Mock.github Scenarios.healthy_service)
            (pk := Mock.dotted) Examples.insertion_order Scenarios.args
            Examples.plugin_x "1.1.0" 0%Z (Mock.start [])
  = (Return (0 + 1)%Z,
     mkState ["Update PluginX to 1.1.0"]
       (log (Mock.start [])
        ++ [Stdout (("UPDATE AVAILABLE: " ++ "1.1.0") ++ nl);
            Request (GetRepo (target_repo Scenarios.args));
            Request (GetIssues "open" ["version-update"]);
            Request (GetRepo (target_repo Scenarios.args));
            Request (CreateIssue
                       (issue_title (name Examples.plugin_x) "1.1.0")
                       (issue_body Examples.insertion_order
                                   Examples.plugin_x "1.1.0")
                       ["version-update"; "automated"]);
            Stdout (("Created issue #" ++ PyStr.str_of_Z 1 ++ ": "
                     ++ issue_title (name Examples.plugin_x) "1.1.0")
                    ++ nl)])%list).
Proof.
  apply (@missing_issue_is_created_once
           Mock.dotted Mock.world Mock.repo_data
           (Mock.github Scenarios.healthy_service)
           Examples.insertion_order Scenarios.args
           Examples.plugin_x "1.1.0" 0%Z (Mock.start [])
           Scenarios.tracker_repo Scenarios.tracker_repo
           [] [] [] ["Update PluginX to 1.1.0"] [] 1%Z);
    try reflexivity.
  intros [].
Defined.

(** ** The orchestrator *)

Section Counters.
Context {pk : Packaging} {W Repo : Type} {gh : Github W Repo}.
Variable file_system : string -> file.
Variable set_iter : list string -> list string.

Ltac go :=
  repeat first
    [ apply runs_bind
    | apply runs_try
    | apply runs_call; intros
    | apply runs_emit
    | apply runs_ret
    | apply runs_raise ];
  cbv beta iota.

(** How the two counters may move while [done] plugins are checked, and how
    many creations may have been requested meanwhile. *)
Definition counted (done : nat) (before after : Z * Z)
           (tail : list event) : Prop :=
  (fst before <= fst after)%Z /\ (snd before <= snd after)%Z
  /\ ((fst after - fst before) + (snd after - snd before)
      <= Z.of_nat done)%Z
  /\ (Z.of_nat (count is_create tail) <= fst after - fst before)%Z.

Lemma reconcile_counts (args : Args) (plugin : Plugin) (latest : string)
      (updates_found : Z) :
  runs (reconcile set_iter args plugin latest updates_found)
       (fun o tail =>
          exists u',
            o = Return u'
            /\ (updates_found <= u' <= updates_found + 1)%Z
            /\ (Z.of_nat (count is_create tail) <= u' - updates_found)%Z).
Proof.
  unfold reconcile, print.
  destruct (any_outdated plugin latest).
  - apply runs_bind, runs_emit; cbv beta iota.
    apply runs_bind.
    apply (runs_weaken _ _ _
             (check_for_existing_issue_runs
                (target_repo args) (name plugin) latest)).
    intros o t ((b & ->) & Hc & _).
    destruct b.
    + go. exists updates_found; split; [reflexivity|].
      split; [lia | counts].
    + apply runs_bind.
      apply (runs_weaken _ _ _
               (create_issue_asks set_iter
                  (target_repo args) plugin latest (dry_run args))).
      intros o2 t2 (-> & Hc2 & _).
      go. exists (updates_found + 1)%Z; split; [reflexivity|].
      split; [lia | counts].
  - go. exists updates_found; split; [reflexivity|].
    split; [lia | counts].
Qed.

Lemma check_plugin_counts (args : Args) (plugin : Plugin)
      (counters : Z * Z) :
  runs (check_plugin set_iter args plugin counters)
       (fun o tail =>
          o = Raise EIndexError
          \/ exists counters',
              o = Return counters' /\ counted 1 counters counters' tail).
Proof.
  destruct counters as [u e].
  unfold check_plugin, print_end_space, print.
  apply runs_bind, runs_emit; cbv beta iota.
  apply runs_bind.
  apply (runs_weaken _ _ _ (get_latest_version_runs plugin)).
  intros o t (Hc & [(-> & _)|([(v & ->)| ->] & _)]).
  - go. right; exists (u, (e + 1)%Z); split; [reflexivity|].
    unfold counted; cbn [fst snd]; repeat split; try lia; counts.
  - apply runs_bind.
    apply (runs_weaken _ _ _ (reconcile_counts args plugin v u)).
    intros o2 t2 (u' & -> & Hu & Hc2).
    go. right; exists (u', e); split; [reflexivity|].
    unfold counted; cbn [fst snd]; repeat split; try lia; counts.
  - now left.
Qed.

Lemma check_plugins_counts (args : Args) (plugins : list Plugin)
      (counters : Z * Z) :
  runs (check_plugins set_iter args plugins counters)
       (fun o tail =>
          o = Raise EIndexError
          \/ exists counters',
              o = Return counters'
              /\ counted (List.length plugins) counters counters' tail).
Proof.
  revert counters.
  induction plugins as [|plugin rest IH]; intros counters; simpl.
  - go. right; exists counters; split; [reflexivity|].
    unfold counted; cbn [fst snd]; rewrite count_nil; repeat split; lia.
  - apply runs_bind.
    apply (runs_weaken _ _ _ (check_plugin_counts args plugin counters)).
    intros o t [->|(c1 & -> & H1)]; [now left|].
    apply (runs_weaken _ _ _ (IH c1)).
    intros o2 t2 [->|(c2 & -> & H2)]; [now left|].
    right; exists c2; split; [reflexivity|].
    unfold counted in *; rewrite count_app.
    destruct H1 as (A1 & B1 & C1 & D1), H2 as (A2 & B2 & C2 & D2).
    repeat split; lia.
Qed.

(** X19: over a run of the loop, neither counter decreases, every plugin is
    counted at most once, as an update or as an error, and the service is
    asked to create no more issues than updates were counted. *)
Theorem counters_are_bounded (args : Args) (plugins : list Plugin)
        (updates_found errors : Z) (s : state W) :
  exists o tail w',
    check_plugins set_iter args plugins (updates_found, errors) s
    = (o, mkState w' (log s ++ tail)%list)
    /\ (o = Raise EIndexError
        \/ exists updates_found' errors',
            o = Return (updates_found', errors')
            /\ (updates_found <= updates_found')%Z
            /\ (errors <= errors')%Z
            /\ ((updates_found' - updates_found) + (errors' - errors)
                <= Z.of_nat (List.length plugins))%Z
            /\ (Z.of_nat (count is_create tail)
                <= updates_found' - updates_found)%Z).
Proof.
  destruct (check_plugins_counts args plugins (updates_found, errors) s)
    as (o & tail & w' & E & Ho).
  exists o, tail, w'; split; [exact E|].
  destruct Ho as [->|([u' e'] & -> & H)]; [now left | right].
  exists u', e'; split; [reflexivity | exact H].
Qed.

(** X20: with a non-empty token and a versions file whose text is read and
    in which no line opens a table, the run checks nothing: it makes no
    request to the service, prints the summary with three zeros and ends
    normally, with exit status 0. *)
Theorem file_without_table_gives_clean_run (args : Args)
        (token content : string) (s : state W) :
  github_token args = Some token -> token <> "" ->
  file_system (versions_file args) = Text content ->
  Forall (fun raw => Table.is_header raw = false)
         (PyStr.split "010" content) ->
  main file_system set_iter args s
  = (Return tt,
     mkState (world s)
       (log s
        ++ [Stdout (("Parsing " ++ versions_file args ++ "...") ++ nl);
            Stdout (("Found 0 plugins to check" ++ nl) ++ nl);
            Stdout ((nl ++ PyStr.repeat_char "=" 50) ++ nl);
            Stdout ("Summary:" ++ nl);
            Stdout ("  Plugins checked: 0" ++ nl);
            Stdout ("  Updates found: 0" ++ nl);
            Stdout ("  Errors: 0" ++ nl)])%list).
Proof.
  intros Ht Hn Hf Hh; unfold main, token_missing, path_exists.
  rewrite Ht, Hf.
  destruct token as [|c token]; [congruence|]; cbv beta iota delta [negb].
  rewrite (run_checks_text file_system set_iter args content s Hf).
  assert (parse_readme content = []) as -> by now apply parse_lines_outside.
  unfold check_and_summarise, bind, print, emit, ret; simpl.
  now rewrite <- !app_assoc.
Qed.

End Counters.

Lemma file_without_table_gives_clean_run_witness :
  main (gh := Mock.github Scenarios.healthy_service) (pk := Mock.dotted)
       (fun _ => Text Examples.release_row) Examples.insertion_order
       Scenarios.args (Mock.start [])
  = (Return tt,
     mkState (world (Mock.start []))
       (log (Mock.start [])
        ++ [Stdout (("Parsing " ++ versions_file Scenarios.args ++ "...")
                    ++ nl);
            Stdout (("Found 0 plugins to check" ++ nl) ++ nl);
            Stdout ((nl ++ PyStr.repeat_char "=" 50) ++ nl);
            Stdout ("Summary:" ++ nl);
            Stdout ("  Plugins checked: 0" ++ nl);
            Stdout ("  Updates found: 0" ++ nl);
            Stdout ("  Errors: 0" ++ nl)])%list).
Proof.
  apply (@file_without_table_gives_clean_run
           Mock.dotted Mock.world Mock.repo_data
           (Mock.github Scenarios.healthy_service)
           (fun _ => Text Examples.release_row) Examples.insertion_order
           Scenarios.args "token" Examples.release_row (Mock.start []));
    try reflexivity; [discriminate|].
  repeat constructor.
Defined.

Section CountedUpdates.
Context {pk : Packaging} {W Repo : Type} {gh : Github W Repo}.
Variable set_iter : list string -> list string.

Ltac unfold_steps :=
  unfold reconcile, check_for_existing_issue, create_issue,
    try_except, bind, call, index0, ret, raise, print, print_err,
    print_end_space, emit; simpl.

Lemma title_not_listed (title : string) (issues : list string) :
  ~ In title issues -> existsb (String.eqb title) issues = false.
Proof.
  intros Hnot; destruct (existsb _ issues) eqn:E; [|reflexivity].
  apply existsb_exists in E as (x & Hin & E).
  apply String.eqb_eq in E; now subst x.
Qed.

(** X21: on a dry run an outdated plugin without an open issue is counted as
    an update all the same: after the search, the four lines of the preview
    are printed, no further request is made, and the counter of updates is
    incremented. *)
Theorem dry_run_counts_the_update
        (args : Args) (plugin : Plugin) (latest : string) (updates_found : Z)
        (s : state W) (r : Repo) (w1 w2 : W) (issues : list string) :
  any_outdated plugin latest = true ->
  dry_run args = true ->
  get_repo (target_repo args) (world s) = (Ok r, w1) ->
  get_issues r "open" ["version-update"] w1 = (Ok issues, w2) ->
  ~ In (issue_title (name plugin) latest) issues ->
  reconcile set_iter args plugin latest updates_found s
  = (Return (updates_found + 1)%Z,
     mkState w2
       (log s
        ++ [Stdout (("UPDATE AVAILABLE: " ++ latest) ++ nl);
            Request (GetRepo (target_repo args));
            Request (GetIssues "open" ["version-update"]);
            Stdout ((nl ++ "[DRY RUN] Would create issue:") ++ nl);
            Stdout (("  Title: " ++ issue_title (name plugin) latest) ++ nl);
            Stdout ("  Labels: version-update, automated" ++ nl);
            Stdout (("  Body:" ++ nl ++ issue_body set_iter plugin latest)
                    ++ nl)])%list).
Proof.
  intros Ha Hd Hrepo Hissues Hnot.
  pose proof (title_not_listed _ _ Hnot) as Hex.
  unfold reconcile; rewrite Ha, Hd; unfold_steps; simpl in Hex.
  rewrite Hrepo; simpl; rewrite Hissues; simpl; rewrite Hex; simpl.
  now rewrite <- !app_assoc.
Qed.

(** X22: an update is counted even when its issue could not be created: if
    the creation request fails, the failure is written to the error stream,
    the step ends normally and the counter of updates is incremented. *)
Theorem failed_creation_is_still_counted
        (args : Args) (plugin : Plugin) (latest : string) (updates_found : Z)
        (s : state W) (r r' : Repo) (w1 w2 w3 w4 : W)
        (issues : list string) (e : GithubException) :
  any_outdated plugin latest = true ->
  dry_run args = false ->
  get_repo (target_repo args) (world s) = (Ok r, w1) ->
  get_issues r "open" ["version-update"] w1 = (Ok issues, w2) ->
  ~ In (issue_title (name plugin) latest) issues ->
  get_repo (target_repo args) w2 = (Ok r', w3) ->
  repo_create_issue r' (issue_title (name plugin) latest)
                    (issue_body set_iter plugin latest)
                    ["version-update"; "automated"] w3
  = (Fails e, w4) ->
  reconcile set_iter args plugin latest updates_found s
  = (Return (updates_found + 1)%Z,
     mkState w4
       (log s
        ++ [Stdout (("UPDATE AVAILABLE: " ++ latest) ++ nl);
            Request (GetRepo (target_repo args));
            Request (GetIssues "open" ["version-update"]);
            Request (GetRepo (target_repo args));
            Request (CreateIssue (issue_title (name plugin) latest)
                                 (issue_body set_iter plugin latest)
                                 ["version-update"; "automated"]);
            Stderr (("Error creating issue for " ++ name plugin ++ ": "
                     ++ message e) ++ nl)])%list).
Proof.
  intros Ha Hd Hrepo Hissues Hnot Hrepo' Hcreate.
  pose proof (title_not_listed _ _ Hnot) as Hex.
  unfold reconcile; rewrite Ha, Hd; unfold_steps.
  simpl in Hex, Hcreate.
  rewrite Hrepo; simpl; rewrite Hissues; simpl; rewrite Hex; simpl.
  rewrite Hrepo'; simpl.
  unfold issue_labels; rewrite Hcreate; simpl.
  now rewrite <- !app_assoc.
Qed.

End CountedUpdates.

Lemma dry_run_counts_the_update_witness :
  reconcile (gh := Mock.github Scenarios.healthy_service)
            (pk := Mock.dotted) Examples.insertion_order
            (Examples.args_for (Some "token") true)
            Examples.plugin_x "1.1.0" 0%Z (Mock.start [])
  = (Return (0 + 1)%Z,
     mkState []
       (log (Mock.start [])
        ++ [Stdout (("UPDATE AVAILABLE: " ++ "1.1.0") ++ nl);
            Request (GetRepo
                       (target_repo (Examples.args_for (Some "token") true)));
            Request (GetIssues "open" ["version-update"]);
            Stdout ((nl ++ "[DRY RUN] Would create issue:") ++ nl);
            Stdout (("  Title: "
                     ++ issue_title (name Examples.plugin_x) "1.1.0") ++ nl);
            Stdout ("  Labels: version-update, automated" ++ nl);
            Stdout (("  Body:" ++ nl
                     ++ issue_body Examples.insertion_order
                                   Examples.plugin_x "1.1.0")
                    ++ nl)])%list).
Proof.
  apply (@dry_run_counts_the_update
           Mock.dotted Mock.world Mock.repo_data
           (Mock.github Scenarios.healthy_service)
           Examples.insertion_order
           (Examples.args_for (Some "token") true)
           Examples.plugin_x "1.1.0" 0%Z (Mock.start [])
           Scenarios.tracker_repo [] [] []);
    try reflexivity.
  intros [].
Defined.

Lemma failed_creation_is_still_counted_witness :
  reconcile (gh := Mock.github Scenarios.refusing_service)
            (pk := Mock.dotted) Examples.insertion_order Scenarios.args
            Examples.plugin_x "1.1.0" 0%Z (Mock.start [])
  = (Return (0 + 1)%Z,
     mkState []
       (log (Mock.start [])
        ++ [Stdout (("UPDATE AVAILABLE: " ++ "1.1.0") ++ nl);
            Request (GetRepo (target_repo Scenarios.args));
            Request (GetIssues "open" ["version-update"]);
            Request (GetRepo (target_repo Scenarios.args));
            Request (CreateIssue
                       (issue_title (name Examples.plugin_x) "1.1.0")
                       (issue_body Examples.insertion_order
                                   Examples.plugin_x "1.1.0")
                       ["version-update"; "automated"]);
            Stderr (("Error creating issue for " ++ name Examples.plugin_x
                     ++ ": " ++ message Scenarios.bad_gateway) ++ nl)])%list).
Proof.
  apply (@failed_creation_is_still_counted
           Mock.dotted Mock.world Mock.repo_data
           (Mock.github Scenarios.refusing_service)
           Examples.insertion_order Scenarios.args
           Examples.plugin_x "1.1.0" 0%Z (Mock.start [])
           Scenarios.tracker_repo Scenarios.tracker_repo
           [] [] [] [] [] Scenarios.bad_gateway);
    try reflexivity.
  intros [].
Defined.
